(** * Wine label cropper: the detection-to-crop pipeline of [server/wine.ts]

    A shallow embedding of [base64ToBuffer], [getImageDimensions],
    [detectWineLabels], [cropImageSharp] and [processWineImage], and the
    properties of the pipeline stated over it; then the [wine.processImage]
    procedure of [server/routers.ts] and the upload handlers of
    [client/src/pages/Home.tsx], with the properties of the page and the
    server taken together.

    Modelling conventions.
    - A JavaScript [number] that comes out of the detector is an exact
      rational ([Q]); [Math.floor] and [Math.ceil] are [Qfloor] and
      [Qceiling], so every pixel quantity is an integer ([Z]).  Image
      dimensions are pixel counts ([Z]).  IEEE-754 rounding, [NaN] and the
      infinities are outside the model.
    - A JavaScript string is a [string] of 8-bit code units.
    - What [JSON.parse] returns is a [JSONValue]; an array element that is
      an object with four numbers is read as a [BoundingBox].  The
      arithmetic of JavaScript on other values (coercions, [NaN]) is
      outside the number model: what is cropped for such an element is
      left to the platform.
    - The external collaborators (the vision model, [sharp], [nanoid], the
      object store, [JSON.parse], [Buffer.from]) are the fields of a
      [Platform]; an asynchronous call is a transition on the platform's
      [World] that returns a value or throws.
    - [async]/[await] is sequential composition in the monad [M], which
      threads the world and the trace of external calls and carries
      exceptions. *)

From Stdlib Require Import ZArith QArith Qround List String Ascii Bool Lia Lqa.
From Stdlib Require Import DecimalString.
Import ListNotations.

Set Implicit Arguments.

Local Open Scope Z_scope.

(* ================================================================== *)
(** * Data model *)

(** [interface BoundingBox { ymin; xmin; ymax; xmax }] *)
Record BoundingBox : Type := mkBoundingBox {
  ymin : Q;
  xmin : Q;
  ymax : Q;
  xmax : Q
}.

(** The value of [JSON.parse]: any JSON value.  An object is the list
    of its keys and their values; the first binding of a key is the one a
    property read sees. *)
#[warnings="-register-all"] Inductive JSONValue : Type :=
| JNull
| JBool (b : bool)
| JNumber (q : Q)
| JString (s : string)
| JArray (elems : list JSONValue)
| JObject (fields : list (string * JSONValue)).

(** What a property read gives: [None] is [undefined]. *)
Definition PropertyValue : Type := option JSONValue.

Fixpoint lookup (key : string) (fields : list (string * JSONValue))
    : PropertyValue :=
  match fields with
  | [] => None
  | (k, v) :: rest => if String.eqb k key then Some v else lookup key rest
  end.

(** [value.key] on a value that is not [null]: only an object has the
    keys of a box. *)
Definition prop (value : JSONValue) (key : string) : PropertyValue :=
  match value with
  | JObject fields => lookup key fields
  | JNull | JBool _ | JNumber _ | JString _ | JArray _ => None
  end.

(** The box an array element is when its four properties are numbers. *)
Definition as_box (value : JSONValue) : option BoundingBox :=
  match prop value "ymin", prop value "xmin",
        prop value "ymax", prop value "xmax" with
  | Some (JNumber a), Some (JNumber b), Some (JNumber c), Some (JNumber d) =>
      Some {| ymin := a; xmin := b; ymax := c; xmax := d |}
  | _, _, _, _ => None
  end.

(** The object [{"ymin": .., "xmin": .., "ymax": .., "xmax": ..}]. *)
Definition box_value (box : BoundingBox) : JSONValue :=
  JObject [("ymin"%string, JNumber (ymin box));
           ("xmin"%string, JNumber (xmin box));
           ("ymax"%string, JNumber (ymax box));
           ("xmax"%string, JNumber (xmax box))].

Definition is_null (value : JSONValue) : bool :=
  match value with
  | JNull => true
  | JBool _ | JNumber _ | JString _ | JArray _ | JObject _ => false
  end.

(** The tuple [[ymin, xmin, ymax, xmax]] of [CropResult.bbox] and of
    [ProcessingResult.bboxes]: the four properties as they were read. *)
Definition BBoxTuple : Type :=
  (PropertyValue * PropertyValue * PropertyValue * PropertyValue)%type.

(** [interface CropResult { id; url; bbox }] *)
Module CropResult.
Record t : Type := make {
  id : string;
  url : string;
  bbox : BBoxTuple
}.
End CropResult.

(** [interface ProcessingResult { crops; bboxes }] *)
Module ProcessingResult.
Record t : Type := make {
  crops : list CropResult.t;
  bboxes : list BBoxTuple
}.
End ProcessingResult.

(** [{ width: number; height: number }] *)
Module Dimensions.
Record t : Type := make {
  width : Z;
  height : Z
}.
End Dimensions.

(** The argument of [extract]: [{ left, top, width, height }]. *)
Module Region.
Record t : Type := make {
  left : Z;
  top : Z;
  width : Z;
  height : Z
}.
End Region.

(* ================================================================== *)
(** * The coordinate mapping of [cropImageSharp] *)

(** The mapping in exact rationals.  Where the code rounds a product in
    a double before [Math.floor] or [Math.ceil], a pixel value of the
    model can differ by one from the value the code computes; the
    properties below are bounds that do not depend on it, and no property
    of the pipeline states a pixel value. *)

Module Mapper.

(** [0.05] *)
Definition padRatio : Q := 5 # 100.

Section Mapping.
Variable bbox : BoundingBox.
Variable imageDimensions : Dimensions.t.

Definition actualWidth : Z := Dimensions.width imageDimensions.
Definition actualHeight : Z := Dimensions.height imageDimensions.

Definition scaleX : Q := inject_Z actualWidth / 1000.
Definition scaleY : Q := inject_Z actualHeight / 1000.

Definition pixelX : Z := Qfloor (xmin bbox * scaleX).
Definition pixelY : Z := Qfloor (ymin bbox * scaleY).
Definition pixelW : Z := Qceiling ((xmax bbox - xmin bbox) * scaleX).
Definition pixelH : Z := Qceiling ((ymax bbox - ymin bbox) * scaleY).

Definition padW : Z := Z.max 1 (Qfloor (inject_Z pixelW * padRatio)).
Definition padH : Z := Z.max 1 (Qfloor (inject_Z pixelH * padRatio)).

Definition cropX : Z := Z.max 0 (pixelX - padW).
Definition cropY : Z := Z.max 0 (pixelY - padH).
Definition cropW : Z := Z.min (actualWidth - cropX) (pixelW + padW * 2).
Definition cropH : Z := Z.min (actualHeight - cropY) (pixelH + padH * 2).

(** The rectangle handed to [extract]. *)
Definition cropRegion : Region.t :=
  {| Region.left := cropX; Region.top := cropY;
     Region.width := cropW; Region.height := cropH |}.
End Mapping.

End Mapper.

(* ================================================================== *)
(** * Regular expressions, for the data-URI test of [base64ToBuffer] *)

Module Regex.

Local Open Scope string_scope.

Inductive regex : Type :=
| Void : regex
| Eps : regex
| Class (p : ascii -> bool) : regex
| Seq (r1 r2 : regex) : regex
| Alt (r1 r2 : regex) : regex
| Star (r : regex) : regex.

(** One literal character, a literal string, and [r+]. *)
Definition Chr (c : ascii) : regex := Class (Ascii.eqb c).

Fixpoint Lit (s : string) : regex :=
  match s with
  | EmptyString => Eps
  | String c s' => Seq (Chr c) (Lit s')
  end.

Definition Plus (r : regex) : regex := Seq r (Star r).

(** The language of a regular expression: [Matches r s] when the whole
    of [s] is matched by [r]. *)
Inductive Matches : regex -> string -> Prop :=
| MEps : Matches Eps ""
| MClass (p : ascii -> bool) (c : ascii) :
    p c = true -> Matches (Class p) (String c "")
| MSeq (r1 r2 : regex) (s1 s2 : string) :
    Matches r1 s1 -> Matches r2 s2 -> Matches (Seq r1 r2) (s1 ++ s2)
| MAltL (r1 r2 : regex) (s : string) :
    Matches r1 s -> Matches (Alt r1 r2) s
| MAltR (r1 r2 : regex) (s : string) :
    Matches r2 s -> Matches (Alt r1 r2) s
| MStarNil (r : regex) : Matches (Star r) ""
| MStarApp (r : regex) (s1 s2 : string) :
    Matches r s1 -> Matches (Star r) s2 -> Matches (Star r) (s1 ++ s2).

(** Matching by derivatives. *)
Fixpoint nullable (r : regex) : bool :=
  match r with
  | Void => false
  | Eps => true
  | Class _ => false
  | Seq r1 r2 => nullable r1 && nullable r2
  | Alt r1 r2 => nullable r1 || nullable r2
  | Star _ => true
  end.

Fixpoint deriv (c : ascii) (r : regex) : regex :=
  match r with
  | Void => Void
  | Eps => Void
  | Class p => if p c then Eps else Void
  | Seq r1 r2 =>
      if nullable r1
      then Alt (Seq (deriv c r1) r2) (deriv c r2)
      else Seq (deriv c r1) r2
  | Alt r1 r2 => Alt (deriv c r1) (deriv c r2)
  | Star r1 => Seq (deriv c r1) (Star r1)
  end.

Fixpoint test (r : regex) (s : string) : bool :=
  match s with
  | EmptyString => nullable r
  | String c s' => test (deriv c r) s'
  end.

(** The character classes of the source pattern.  [\w] is
    [[A-Za-z0-9_]]; [.] is any code unit but a line terminator. *)
Definition is_word (c : ascii) : bool :=
  let n := N_of_ascii c in
  ((48 <=? n) && (n <=? 57) || (65 <=? n) && (n <=? 90)
   || (97 <=? n) && (n <=? 122) || (n =? 95))%N.

Definition is_dot (c : ascii) : bool :=
  let n := N_of_ascii c in negb ((n =? 10) || (n =? 13))%N.

(** Every character of [s] is in the class [p]. *)
Fixpoint forall_chars (p : ascii -> bool) (s : string) : bool :=
  match s with
  | EmptyString => true
  | String c s' => p c && forall_chars p s'
  end.

End Regex.

(* ================================================================== *)
(** * [base64ToBuffer]: the pattern and its capture groups *)

Module DataUri.

Import Regex.
Local Open Scope string_scope.

(** The pattern of the source: [^], the literal [data:image/], a first
    group of one or more [\w], the literal [;base64,], a second group of
    any number of [.], and [$].  Both anchors and no flag: the pattern is
    matched against the whole input. *)
Definition pattern : regex :=
  Seq (Lit "data:image/")
    (Seq (Plus (Class is_word))
      (Seq (Lit ";base64,")
        (Star (Class is_dot)))).

(** The longest prefix of word characters, and what follows it. *)
Fixpoint span_word (s : string) : string * string :=
  match s with
  | EmptyString => ("", "")
  | String c s' =>
      if is_word c
      then let (t, rest) := span_word s' in (String c t, rest)
      else ("", s)
  end.

Fixpoint drop (n : nat) (s : string) : string :=
  match n, s with
  | O, _ => s
  | S n', String _ s' => drop n' s'
  | S _, EmptyString => ""
  end.

(** [matches[1]] and [matches[2]] of a successful match. *)
Definition groups (s : string) : string * string :=
  let (subtype, rest) := span_word (drop 11 s) in
  (subtype, drop 8 rest).

(** The strings of the shape [data:image/<type>;base64,<payload>], with
    the type and the payload the pattern allows. *)
Definition shaped (s subtype payload : string) : Prop :=
  s = "data:image/" ++ subtype ++ ";base64," ++ payload
  /\ subtype <> ""
  /\ forall_chars is_word subtype = true
  /\ forall_chars is_dot payload = true.

(** [base64.match(pattern)]: [None] is [null], [Some] carries the two
    groups. *)
Definition String_match (base64 : string) : option (string * string) :=
  if test pattern base64 then Some (groups base64) else None.

End DataUri.

(* ================================================================== *)
(** * The platform: the collaborators the pipeline calls *)

(** A thrown value. *)
Inductive exn : Type :=
| Error (message : string).

(** What the vision model answers: [response.choices[0]?.message?.content]
    is absent, a non-string (an array of content parts), or a string. *)
Inductive Content : Type :=
| ContentAbsent
| ContentParts
| ContentText (s : string).

Record Message : Type := { content : Content }.
Record Choice : Type := { message : option Message }.
Record Response : Type := { choices : list Choice }.

(** [sharp(buffer).metadata()]: either dimension may be undefined. *)
Record Metadata : Type := {
  md_width : option Z;
  md_height : option Z
}.

Record Platform : Type := {
  World : Type;
  Buffer : Type;
  (** [Buffer.from(payload, "base64")] *)
  Buffer_from : string -> Buffer;
  (** [JSON.parse]; [None] when it throws *)
  JSON_parse : string -> option JSONValue;
  (** [invokeLLM] on the fixed request carrying the image URL *)
  invokeLLM : string -> World -> (exn + Response) * World;
  (** [sharp(buffer).metadata()] *)
  sharp_metadata : Buffer -> World -> (exn + Metadata) * World;
  (** [sharp(buffer).extract(region).png().toBuffer()] *)
  sharp_extract_png : Buffer -> Region.t -> World -> (exn + Buffer) * World;
  (** the same call for an array element that is not [null] and whose
      four properties are not all numbers: the area JavaScript computes
      from it, and what [sharp] does with that area *)
  sharp_extract_png_coerced :
    Buffer -> JSONValue -> Dimensions.t -> World -> (exn + Buffer) * World;
  (** [nanoid()] *)
  nanoid : World -> string * World;
  (** [storagePut(key, data, contentType)], returning the [url] *)
  storagePut : string -> Buffer -> string -> World -> (exn + string) * World
}.

(** The external calls and log lines of a run, in order. *)
Inductive Event : Type :=
| CallInvokeLLM (imageUrl : string)
| CallMetadata
| CallExtract (region : Region.t)
| CallExtractCoerced (element : JSONValue)
| CallNanoid
| CallStoragePut (key contentType : string)
| ConsoleError (msg : string).

(* ================================================================== *)
(** * The monad of the pipeline: world, trace and exceptions *)

Module Run.

Record State (W : Type) : Type := mkState {
  world : W;
  trace : list Event
}.

Inductive Outcome (A : Type) : Type :=
| Returned (a : A)
| Thrown (e : exn).

Arguments Thrown {A} e.

Definition M (W A : Type) : Type := State W -> Outcome A * State W.

Section Ops.
Context {W : Type}.

Definition ret {A} (a : A) : M W A := fun st => (Returned a, st).

Definition throw {A} (e : exn) : M W A := fun st => (Thrown e, st).

Definition bind {A B} (m : M W A) (k : A -> M W B) : M W B :=
  fun st =>
    match m st with
    | (Returned a, st') => k a st'
    | (Thrown e, st') => (Thrown e, st')
    end.

(** [try { m } catch (error) { h error }] *)
Definition try_catch {A} (m : M W A) (h : exn -> M W A) : M W A :=
  fun st =>
    match m st with
    | (Returned a, st') => (Returned a, st')
    | (Thrown e, st') => h e st'
    end.

Definition emit (ev : Event) : M W unit :=
  fun st => (Returned tt, {| world := world st; trace := trace st ++ [ev] |}).

(** An external call that may throw. *)
Definition call {A} (ev : Event) (f : W -> (exn + A) * W) : M W A :=
  fun st =>
    let (r, w') := f (world st) in
    let st' := {| world := w'; trace := trace st ++ [ev] |} in
    match r with
    | inr a => (Returned a, st')
    | inl e => (Thrown e, st')
    end.

(** An external call that always returns. *)
Definition call_total {A} (ev : Event) (f : W -> A * W) : M W A :=
  fun st =>
    let (a, w') := f (world st) in
    (Returned a, {| world := w'; trace := trace st ++ [ev] |}).

(** [console.error(msg, error)] *)
Definition console_error (msg : string) : M W unit :=
  emit (ConsoleError msg).
End Ops.

End Run.

Declare Scope run_scope.
Delimit Scope run_scope with run.
Notation "x <- m ;; k" := (Run.bind m (fun x => k))
  (at level 61, m at next level, right associativity) : run_scope.
Notation "m ;;; k" := (Run.bind m (fun _ => k))
  (at level 61, right associativity) : run_scope.

(* ================================================================== *)
(** * The pipeline *)

Module Wine.

Import Run.
Local Open Scope run_scope.
Local Open Scope string_scope.

Section Pipeline.
Variable P : Platform.

(** [function base64ToBuffer(base64: string): Buffer] *)
Definition base64ToBuffer (base64 : string) : exn + Buffer P :=
  match DataUri.String_match base64 with
  | None => inl (Error "Invalid base64 image data")
  | Some matches => inr (Buffer_from P (snd matches))
  end.

(** A synchronous call that may throw, inside [M]. *)
Definition lift {A} (r : exn + A) : M (World P) A :=
  match r with
  | inr a => ret a
  | inl e => throw e
  end.

(** [v || d] on an optional number: [undefined] and [0] are falsy. *)
Definition or_default (v : option Z) (d : Z) : Z :=
  match v with
  | Some n => if (n =? 0)%Z then d else n
  | None => d
  end.

(** [async function getImageDimensions(buffer)] *)
Definition getImageDimensions (buffer : Buffer P) : M (World P) Dimensions.t :=
  metadata <- call CallMetadata (sharp_metadata P buffer) ;;
  ret {| Dimensions.width := or_default (md_width metadata) 1000;
         Dimensions.height := or_default (md_height metadata) 1000 |}.

(** [response.choices[0]?.message?.content] *)
Definition response_content (response : Response) : Content :=
  match choices response with
  | [] => ContentAbsent
  | choice :: _ =>
      match message choice with
      | None => ContentAbsent
      | Some m => content m
      end
  end.

(** [!content || typeof content !== "string"]: the text of a usable
    content, [None] when the guard returns early. *)
Definition content_text (c : Content) : option string :=
  match c with
  | ContentText s => if String.eqb s "" then None else Some s
  | ContentAbsent | ContentParts => None
  end.

(** [Array.isArray(parsed) ? parsed : []] *)
Definition array_or_empty (parsed : JSONValue) : list JSONValue :=
  match parsed with
  | JArray elems => elems
  | _ => []
  end.

(** [async function detectWineLabels(imageBase64)]: the call to the
    model is outside the [try]; reading and parsing the content is
    inside it. *)
Definition detectWineLabels (imageBase64 : string) : M (World P) (list JSONValue) :=
  response <- call (CallInvokeLLM imageBase64) (invokeLLM P imageBase64) ;;
  try_catch
    (match content_text (response_content response) with
     | None => ret []
     | Some text =>
         parsed <- lift (match JSON_parse P text with
                         | Some v => inr v
                         | None => inl (Error "SyntaxError")
                         end) ;;
         ret (array_or_empty parsed)
     end)
    (fun error => console_error "Failed to parse LLM response:" ;;; ret []).

(** [async function cropImageSharp(buffer, bbox, imageDimensions)], on
    the array element as it was parsed.  Reading [bbox.xmin] of [null] is
    a [TypeError], before anything is cropped; an element with four
    numbers is mapped and handed to [extract]. *)
Definition cropImageSharp (buffer : Buffer P) (bbox : JSONValue)
    (imageDimensions : Dimensions.t) : M (World P) (Buffer P) :=
  match as_box bbox with
  | Some box =>
      let region := Mapper.cropRegion box imageDimensions in
      call (CallExtract region) (sharp_extract_png P buffer region)
  | None =>
      match bbox with
      | JNull => throw (Error "TypeError")
      | JBool _ | JNumber _ | JString _ | JArray _ | JObject _ =>
          call (CallExtractCoerced bbox)
            (sharp_extract_png_coerced P buffer bbox imageDimensions)
      end
  end.

(** [[bbox.ymin, bbox.xmin, bbox.ymax, bbox.xmax]] *)
Definition tuple_of (bbox : JSONValue) : BBoxTuple :=
  (prop bbox "ymin", prop bbox "xmin", prop bbox "ymax", prop bbox "xmax").

(** The body of the inner [try] of the loop: crop, store, and the two
    [push]es on the arrays. *)
Definition processLabel (imageBuffer : Buffer P)
    (imageDimensions : Dimensions.t) (bbox : JSONValue)
    (acc : list CropResult.t * list BBoxTuple)
    : M (World P) (list CropResult.t * list BBoxTuple) :=
  croppedBuffer <- cropImageSharp imageBuffer bbox imageDimensions ;;
  cropId <- call_total CallNanoid (nanoid P) ;;
  url <- call (CallStoragePut ("wine-crops/" ++ cropId ++ ".png") "image/png")
           (storagePut P ("wine-crops/" ++ cropId ++ ".png") croppedBuffer
              "image/png") ;;
  ret ((fst acc ++ [ {| CropResult.id := cropId; CropResult.url := url;
                        CropResult.bbox := tuple_of bbox |} ])%list,
       (snd acc ++ [ tuple_of bbox ])%list).

(** [for (const bbox of detectedLabels) { try { ... } catch { ... } }] *)
Fixpoint forLabels (imageBuffer : Buffer P) (imageDimensions : Dimensions.t)
    (detectedLabels : list JSONValue)
    (acc : list CropResult.t * list BBoxTuple)
    : M (World P) (list CropResult.t * list BBoxTuple) :=
  match detectedLabels with
  | [] => ret acc
  | bbox :: rest =>
      acc' <- try_catch
                (processLabel imageBuffer imageDimensions bbox acc)
                (fun error =>
                   console_error "Failed to process individual label:" ;;;
                   ret acc) ;;
      forLabels imageBuffer imageDimensions rest acc'
  end.

(** [export async function processWineImage(imageBase64)] *)
Definition processWineImage (imageBase64 : string) : M (World P) ProcessingResult.t :=
  try_catch
    (imageBuffer <- lift (base64ToBuffer imageBase64) ;;
     detectedLabels <- detectWineLabels imageBase64 ;;
     if (List.length detectedLabels =? 0)%nat
     then ret {| ProcessingResult.crops := []; ProcessingResult.bboxes := [] |}
     else
       imageDimensions <- getImageDimensions imageBuffer ;;
       acc <- forLabels imageBuffer imageDimensions detectedLabels ([], []) ;;
       ret {| ProcessingResult.crops := fst acc;
              ProcessingResult.bboxes := snd acc |})
    (fun error => console_error "Failed to process wine image:" ;;; throw error).

(** Whether the per-box step of the loop throws, box by box, in the run
    of the loop from a given state. *)
Fixpoint labelFailures (imageBuffer : Buffer P) (imageDimensions : Dimensions.t)
    (detectedLabels : list JSONValue) (st : State (World P)) : list bool :=
  match detectedLabels with
  | [] => []
  | bbox :: rest =>
      match processLabel imageBuffer imageDimensions bbox ([], []) st with
      | (Returned _, st') =>
          false :: labelFailures imageBuffer imageDimensions rest st'
      | (Thrown _, st') =>
          true :: labelFailures imageBuffer imageDimensions rest
                    {| world := world st';
                       trace := (trace st' ++
                         [ConsoleError "Failed to process individual label:"])%list |}
      end
  end.

(** The contents from which no box can be read: missing, not a
    string, not JSON, or JSON that is not an array. *)
Inductive Unusable : Content -> Prop :=
| Missing : Unusable ContentAbsent
| NotAString : Unusable ContentParts
| MalformedJSON (text : string) :
    JSON_parse P text = None -> Unusable (ContentText text)
| NotAnArray (text : string) (v : JSONValue) :
    JSON_parse P text = Some v ->
    (forall elems, v <> JArray elems) ->
    Unusable (ContentText text).

End Pipeline.

(** The number of boxes whose step threw. *)
Definition failures (failed : list bool) : nat :=
  List.length (filter (fun b => b) failed).

(** The boxes whose step did not throw, given the flags of
    [labelFailures]. *)
Fixpoint survivors (detectedLabels : list JSONValue) (failed : list bool)
    : list JSONValue :=
  match detectedLabels, failed with
  | bbox :: rest, false :: failed' => bbox :: survivors rest failed'
  | _ :: rest, true :: failed' => survivors rest failed'
  | _, _ => []
  end.

(** The regions of the [extract] calls of a trace, in order. *)
Fixpoint extracted (evs : list Event) : list Region.t :=
  match evs with
  | [] => []
  | CallExtract region :: evs' => region :: extracted evs'
  | _ :: evs' => extracted evs'
  end.

(** The regions the mapping gives, in order, for the elements that are
    boxes. *)
Fixpoint mapped (imageDimensions : Dimensions.t) (labels : list JSONValue)
    : list Region.t :=
  match labels with
  | [] => []
  | bbox :: rest =>
      match as_box bbox with
      | Some box =>
          Mapper.cropRegion box imageDimensions :: mapped imageDimensions rest
      | None => mapped imageDimensions rest
      end
  end.

(** The events of a trace that touch the image: reading its metadata,
    cropping, naming and storing a crop. *)
Definition image_effect (ev : Event) : bool :=
  match ev with
  | CallMetadata | CallExtract _ | CallExtractCoerced _ | CallNanoid
  | CallStoragePut _ _ => true
  | CallInvokeLLM _ | ConsoleError _ => false
  end.

End Wine.

(* ================================================================== *)
(** * A scripted platform, to run the pipeline on concrete inputs *)

Module Scripted.

Local Open Scope string_scope.

(** [extract] throws on an area that is empty or leaves the image, as
    [sharp] does; the store accepts everything; identifiers are drawn
    from a counter. *)
Definition extract_ok (imageDimensions : Dimensions.t) (r : Region.t) : bool :=
  ((0 <=? Region.left r) && (0 <=? Region.top r)
   && (1 <=? Region.width r) && (1 <=? Region.height r)
   && (Region.left r + Region.width r <=? Dimensions.width imageDimensions)
   && (Region.top r + Region.height r <=? Dimensions.height imageDimensions))%Z.

Definition platform (reply : Response) (parse : string -> option JSONValue)
    (md : Metadata) (actual : Dimensions.t) : Platform :=
  {| World := nat;
     Buffer := string;
     Buffer_from := fun payload => payload;
     JSON_parse := parse;
     invokeLLM := fun _ w => (inr reply, w);
     sharp_metadata := fun _ w => (inr md, w);
     sharp_extract_png := fun buffer r w =>
       if extract_ok actual r then (inr buffer, w)
       else (inl (Error "extract_area: bad extract area"), w);
     sharp_extract_png_coerced := fun _ _ _ w =>
       (inl (Error "Expected integer for left"), w);
     nanoid := fun w => (String (ascii_of_nat (97 + w)%nat) "", S w);
     storagePut := fun key _ _ w => (inr ("https://storage/" ++ key), w) |}.

Definition reply_text (s : string) : Response :=
  {| choices := [ {| message := Some {| content := ContentText s |} |} ] |}.

Definition start : Run.State nat := {| Run.world := O; Run.trace := [] |}.

Definition png : string := "data:image/png;base64,iVBORw0KGgo=".

Definition dims1000 : Dimensions.t :=
  {| Dimensions.width := 1000; Dimensions.height := 1000 |}.

Definition full_metadata : Metadata :=
  {| md_width := Some 1000; md_height := Some 1000 |}.


(** The box of the test suite, an inverted box and a box outside the
    grid. *)
Definition label : BoundingBox :=
  {| ymin := 100; xmin := 200; ymax := 500; xmax := 700 |}.

Definition inverted : BoundingBox :=
  {| ymin := 100; xmin := 500; ymax := 500; xmax := 100 |}.

Definition outside : BoundingBox :=
  {| ymin := 100; xmin := 1200; ymax := 500; xmax := 1500 |}.

(** A box of zero width. *)
Definition degenerate : BoundingBox :=
  {| ymin := 100; xmin := 300; ymax := 500; xmax := 300 |}.


End Scripted.

(* ================================================================== *)
(** * Counting the calls of a trace *)

Module Trace.

Definition is_model_call (ev : Event) : bool :=
  match ev with
  | CallInvokeLLM _ => true
  | _ => false
  end.

Definition is_metadata_call (ev : Event) : bool :=
  match ev with
  | CallMetadata => true
  | _ => false
  end.

(** The calls that crop: [extract] on a mapped box, or on what
    JavaScript computes from another element. *)
Definition is_crop_call (ev : Event) : bool :=
  match ev with
  | CallExtract _ | CallExtractCoerced _ => true
  | _ => false
  end.

(** The events of the loop over the boxes. *)
Definition is_label_event (ev : Event) : bool :=
  match ev with
  | CallExtract _ | CallExtractCoerced _ | CallNanoid | CallStoragePut _ _
  | ConsoleError _ => true
  | CallInvokeLLM _ | CallMetadata => false
  end.

Definition count (p : Event -> bool) (evs : list Event) : nat :=
  List.length (filter p evs).

(** A crop whose identifier was drawn from [nanoid], whose URL is the
    answer of the store for the key [wine-crops/<id>.png] and the content
    type [image/png], and whose store call is in the trace. *)
Definition stored (P : Platform) (evs : list Event) (c : CropResult.t) : Prop :=
  (exists w w', nanoid P w = (CropResult.id c, w'))
  /\ (exists buffer w w',
        storagePut P ("wine-crops/" ++ CropResult.id c ++ ".png")%string buffer
          "image/png"%string w = (inr (CropResult.url c), w'))
  /\ In (CallStoragePut ("wine-crops/" ++ CropResult.id c ++ ".png")%string
           "image/png"%string) evs.

End Trace.

(* ================================================================== *)
(** * Scripted platforms with a failing collaborator *)

Module ScriptedFaults.

Local Open Scope string_scope.

(** The vision model cannot be reached. *)
Definition model_down : Platform :=
  {| World := nat;
     Buffer := string;
     Buffer_from := fun payload => payload;
     JSON_parse := fun _ => None;
     invokeLLM := fun _ w => (inl (Error "fetch failed"), w);
     sharp_metadata := fun _ w => (inr Scripted.full_metadata, w);
     sharp_extract_png := fun buffer _ w => (inr buffer, w);
   sharp_extract_png_coerced := fun _ _ _ w =>
     (inl (Error "Expected integer for left"), w);
     nanoid := fun w => (String (ascii_of_nat (97 + w)%nat) "", S w);
     storagePut := fun key _ _ w => (inr ("https://storage/" ++ key), w) |}.

(** The model finds one label, but [sharp] cannot read the image. *)
Definition unreadable_image : Platform :=
  {| World := nat;
     Buffer := string;
     Buffer_from := fun payload => payload;
     JSON_parse := fun _ => Some (JArray [box_value Scripted.label]);
     invokeLLM := fun _ w => (inr (Scripted.reply_text "[...]"), w);
     sharp_metadata := fun _ w =>
       (inl (Error "Input buffer contains unsupported image format"), w);
     sharp_extract_png := fun buffer _ w => (inr buffer, w);
   sharp_extract_png_coerced := fun _ _ _ w =>
     (inl (Error "Expected integer for left"), w);
     nanoid := fun w => (String (ascii_of_nat (97 + w)%nat) "", S w);
     storagePut := fun key _ _ w => (inr ("https://storage/" ++ key), w) |}.

(** A platform whose model answers the given array, on a 1000 x 1000
    image. *)
Definition answers (elems : list JSONValue) : Platform :=
  Scripted.platform (Scripted.reply_text "[...]")
    (fun _ => Some (JArray elems)) Scripted.full_metadata Scripted.dims1000.

(** A platform that finds the given boxes on a 1000 x 1000 image. *)
Definition finds (boxes : list BoundingBox) : Platform :=
  answers (map box_value boxes).

End ScriptedFaults.

(* ================================================================== *)
(** * The [wine.processImage] procedure of [server/routers.ts] *)

Module Router.

Import Run.
Local Open Scope run_scope.
Local Open Scope string_scope.

(** The [unknown] value a request carries: a deserialized JSON value.  An
    object is the list of its own keys and their values; the first binding
    of a key is the one a property read sees. *)
#[warnings="-register-all"] Inductive JSValue : Type :=
| VUndefined
| VNull
| VBool (b : bool)
| VNumber (q : Q)
| VString (s : string)
| VArray (items : list JSValue)
| VObject (fields : list (string * JSValue)).

(** [key in val], for an object. *)
Fixpoint has_key (key : string) (fields : list (string * JSValue)) : bool :=
  match fields with
  | [] => false
  | (k, _) :: rest => String.eqb k key || has_key key rest
  end.

(** [val.key]: [VUndefined] when the key is absent. *)
Fixpoint get (key : string) (fields : list (string * JSValue)) : JSValue :=
  match fields with
  | [] => VUndefined
  | (k, v) :: rest => if String.eqb k key then v else get key rest
  end.

(** The parser given to [.input]:
    [typeof val === 'object' && val !== null && 'imageData' in val], else
    [throw new Error('Invalid input')].  An array is an object without
    that key. *)
Definition processImage_input (val : JSValue)
    : exn + list (string * JSValue) :=
  match val with
  | VObject fields =>
      if has_key "imageData" fields then inr fields
      else inl (Error "Invalid input")
  | VUndefined | VNull | VBool _ | VNumber _ | VString _ | VArray _ =>
      inl (Error "Invalid input")
  end.

Section Procedure.
Variable P : Platform.

(** [processWineImage(input.imageData)] on whatever the key holds.  On a
    value that is not a string, [base64.match] is not callable: a
    [TypeError] inside the outer [try] of [processWineImage], logged and
    thrown again by its [catch]. *)
Definition processWineImage_of (imageData : JSValue)
    : M (World P) ProcessingResult.t :=
  match imageData with
  | VString imageBase64 => Wine.processWineImage P imageBase64
  | VUndefined | VNull | VBool _ | VNumber _ | VArray _ | VObject _ =>
      console_error "Failed to process wine image:" ;;;
      throw (Error "TypeError")
  end.

(** [publicProcedure.input(parser).mutation(handler)]: the parser runs
    first, and the handler only on what it returned. *)
Definition processImage (val : JSValue) : M (World P) ProcessingResult.t :=
  input <- Wine.lift P (processImage_input val) ;;
  processWineImage_of (get "imageData" input).

End Procedure.

End Router.

(* ================================================================== *)
(** * The page of [client/src/pages/Home.tsx] *)

Module Home.

Import Run.
Local Open Scope string_scope.

(** [interface ProcessingState].  [originalUrl] is undefined in a state
    built by spreading a [null] previous state. *)
Record ProcessingState : Type := {
  originalUrl : option string;
  crops : list CropResult.t;
  bboxes : list BBoxTuple;
  isProcessing : bool
}.

Inductive Toast : Type :=
| ToastError (msg : string)
| ToastSuccess (msg : string).

(** The [state] of the page ([null] is the upload view) and the toasts
    shown so far.  The second piece of React state, [imageDimensions], is
    fed by the image element of the DOM through [useEffect] and is not
    part of the model, and neither is the overlay drawn from it. *)
Record UI : Type := {
  state : option ProcessingState;
  toasts : list Toast
}.

(** [file.type.startsWith("image/")] *)
Definition is_image (file_type : string) : bool :=
  String.prefix "image/" file_type.

(** [handleFileSelect(file)] up to the start of the read: [false] when the
    file is refused, [true] when [readAsDataURL] was called. *)
Definition handleFileSelect (file_type : string) (ui : UI) : UI * bool :=
  if negb (is_image file_type)
  then ({| state := state ui;
           toasts := toasts ui ++ [ToastError "Please select a valid image file"] |},
        false)
  else (ui, true).

(** [reader.onload], up to the [await]: the page shows the image and the
    spinner, and the request [{ imageData }] leaves. *)
Definition onload_begin (imageData : string) (ui : UI) : UI * Router.JSValue :=
  ({| state := Some {| originalUrl := Some imageData; crops := [];
                       bboxes := []; isProcessing := true |};
      toasts := toasts ui |},
   Router.VObject [("imageData", Router.VString imageData)]).

(** [{ ...prev!, crops, bboxes, isProcessing: false }] *)
Definition merge_result (prev : option ProcessingState)
    (result : ProcessingResult.t) : ProcessingState :=
  {| originalUrl := match prev with
                    | Some s => originalUrl s
                    | None => None
                    end;
     crops := ProcessingResult.crops result;
     bboxes := ProcessingResult.bboxes result;
     isProcessing := false |}.

(** [`Detected ${n} wine labels`] *)
Definition detected_message (n : nat) : string :=
  "Detected " ++ NilZero.string_of_uint (Nat.to_uint n) ++ " wine labels".

(** [reader.onload], from the [await] on: the rest of the [try] when the
    mutation resolved, the [catch] when it rejected. *)
Definition onload_settle (outcome : Outcome ProcessingResult.t) (ui : UI) : UI :=
  match outcome with
  | Returned result =>
      {| state := Some (merge_result (state ui) result);
         toasts := toasts ui ++
           [ToastSuccess
              (detected_message (List.length (ProcessingResult.crops result)))] |}
  | Thrown _ =>
      {| state := None;
         toasts := toasts ui ++ [ToastError "Failed to process image"] |}
  end.

(** The button "Upload Another Image": [setState(null)]. *)
Definition reset (ui : UI) : UI :=
  {| state := None; toasts := toasts ui |}.

(** One upload from the page to the server and back, with no other event
    of the page in between: [handleFileSelect], then [reader.onload] with
    the data URL the reader produced, the mutation being the procedure of
    the router run on the server's platform. *)
Definition upload (P : Platform) (file_type imageData : string)
    (ui : UI) (server : State (World P)) : UI * State (World P) :=
  let (ui0, reading) := handleFileSelect file_type ui in
  if reading
  then
    let (ui1, request) := onload_begin imageData ui0 in
    let (outcome, server') := Router.processImage P request server in
    (onload_settle outcome ui1, server')
  else (ui0, server).

Definition start : UI :=
  {| state := None; toasts := [] |}.

End Home.

(* ################################################################## *)
(** * Properties of the coordinate mapping *)

Module MapperFacts.

Import Mapper.

Lemma padW_floor bbox dims : 1 <= padW bbox dims.
Proof. unfold padW. apply Z.le_max_l. Qed.

Lemma padH_floor bbox dims : 1 <= padH bbox dims.
Proof. unfold padH. apply Z.le_max_l. Qed.

(** A scale factor is not negative on an image of positive size. *)
Lemma scale_nonneg (n : Z) : 0 < n -> (0 <= inject_Z n / 1000)%Q.
Proof.
  intros Hn. apply Qle_shift_div_l; [reflexivity|].
  rewrite Qmult_0_l. change 0%Q with (inject_Z 0).
  rewrite <- Zle_Qle. lia.
Qed.

(** A coordinate of at most 1000 lands at or before the far edge. *)
Lemma origin_le_size (v : Q) (n : Z) :
  (v <= 1000)%Q -> 0 < n -> Qfloor (v * (inject_Z n / 1000)) <= n.
Proof.
  intros Hv Hn.
  rewrite <- (Qfloor_Z n) at 2.
  apply Qfloor_resp_le.
  assert (Hs := scale_nonneg Hn).
  assert (E : (1000 * (inject_Z n / 1000) == inject_Z n)%Q) by (field; discriminate).
  apply Qle_trans with (1000 * (inject_Z n / 1000))%Q.
  - apply Qmult_le_compat_r; assumption.
  - rewrite E. apply Qle_refl.
Qed.

(** A box that is not inverted has a base extent that is not negative. *)
Lemma extent_nonneg (lo hi : Q) (n : Z) :
  (lo <= hi)%Q -> 0 < n -> 0 <= Qceiling ((hi - lo) * (inject_Z n / 1000)).
Proof.
  intros Hb Hn.
  rewrite <- (Qceiling_Z 0).
  apply Qceiling_resp_le.
  change (inject_Z 0) with 0%Q.
  apply Qmult_le_0_compat; [lra | apply scale_nonneg; assumption].
Qed.

(** A box of zero width has a base width of 0 and still gets 1 pixel of
    padding on each side. *)
Example degenerate_box_padding :
  pixelW Scripted.degenerate Scripted.dims1000 = 0
  /\ padW Scripted.degenerate Scripted.dims1000 = 1
  /\ Region.width (cropRegion Scripted.degenerate Scripted.dims1000) = 2.
Proof. repeat split. Qed.

(** A box that starts beyond the grid is mapped to a rectangle that starts
    beyond the image, of negative width. *)
Example outside_box_region :
  cropRegion Scripted.outside Scripted.dims1000
  = {| Region.left := 1185; Region.top := 80;
       Region.width := -185; Region.height := 440 |}.
Proof. reflexivity. Qed.

(** C1. Whatever the four numbers of the box and whatever the image
    dimensions (positive or not), the rectangle handed to [extract] has
    a left and a top that are not negative, and its right and bottom
    edges do not pass the image width and height.  The origin is the
    padded origin clamped at 0, and the extent is the padded extent
    bounded by what remains from that clamped origin. *)
Theorem crop_region_within_image (bbox : BoundingBox) (dims : Dimensions.t) :
  let r := cropRegion bbox dims in
  0 <= Region.left r /\ 0 <= Region.top r /\
  Region.left r + Region.width r <= Dimensions.width dims /\
  Region.top r + Region.height r <= Dimensions.height dims /\
  Region.left r = Z.max 0 (pixelX bbox dims - padW bbox dims) /\
  Region.top r = Z.max 0 (pixelY bbox dims - padH bbox dims) /\
  Region.width r =
    Z.min (Dimensions.width dims - Region.left r)
          (pixelW bbox dims + padW bbox dims * 2) /\
  Region.height r =
    Z.min (Dimensions.height dims - Region.top r)
          (pixelH bbox dims + padH bbox dims * 2).
Proof.
  cbn zeta. unfold cropRegion; cbn [Region.left Region.top Region.width Region.height].
  unfold cropW, cropH, cropX, cropY, actualWidth, actualHeight.
  repeat split; lia.
Qed.

(** C3, as amended. On an image of positive width and height, a box
    that is not inverted ([xmin <= xmax], [ymin <= ymax]) and starts at
    or before the far edge of the grid ([xmin <= 1000], [ymin <= 1000])
    is mapped to a rectangle of width and height at least 1. *)
Theorem crop_region_extent_positive (bbox : BoundingBox) (dims : Dimensions.t) :
  0 < Dimensions.width dims -> 0 < Dimensions.height dims ->
  (xmin bbox <= xmax bbox)%Q -> (ymin bbox <= ymax bbox)%Q ->
  (xmin bbox <= 1000)%Q -> (ymin bbox <= 1000)%Q ->
  1 <= Region.width (cropRegion bbox dims) /\
  1 <= Region.height (cropRegion bbox dims).
Proof.
  intros Hw Hh Hx Hy Hx1 Hy1.
  assert (Px := origin_le_size Hx1 Hw).
  assert (Py := origin_le_size Hy1 Hh).
  assert (Ex := extent_nonneg Hx Hw).
  assert (Ey := extent_nonneg Hy Hh).
  assert (Pw := padW_floor bbox dims).
  assert (Ph := padH_floor bbox dims).
  unfold cropRegion; cbn [Region.width Region.height].
  unfold cropW, cropH, cropX, cropY, pixelX, pixelY, pixelW, pixelH,
    scaleX, scaleY, actualWidth, actualHeight in *.
  split; lia.
Qed.

Lemma crop_region_extent_positive_witness :
  1 <= Region.width (cropRegion Scripted.label Scripted.dims1000) /\
  1 <= Region.height (cropRegion Scripted.label Scripted.dims1000).
Proof.
  apply (@crop_region_extent_positive Scripted.label Scripted.dims1000);
    vm_compute; congruence.
Defined.

(** C3, as stated, fails: on a 1000 x 1000 image the box
    [{ymin:100, xmin:500, ymax:500, xmax:100}], whose four numbers are on
    the grid but whose x range is inverted, is mapped to a rectangle of
    width -398. *)
Lemma inverted_box_extent_not_positive :
  0 < Dimensions.width Scripted.dims1000 /\
  0 < Dimensions.height Scripted.dims1000 /\
  Region.width (cropRegion Scripted.inverted Scripted.dims1000) = -398 /\
  ~ (1 <= Region.width (cropRegion Scripted.inverted Scripted.dims1000) /\
     1 <= Region.height (cropRegion Scripted.inverted Scripted.dims1000)).
Proof.
  repeat split; try reflexivity.
  intros [Hw _]. vm_compute in Hw. apply Hw. reflexivity.
Qed.

(** C4. The box [{ymin:100, xmin:200, ymax:500, xmax:700}] on a
    1000 x 1000 image: base rectangle x=200, y=100, w=500, h=400; padding
    25 and 20; rectangle handed to [extract] x=175, y=80, w=550, h=440. *)
Theorem test_suite_box_mapping :
  pixelX Scripted.label Scripted.dims1000 = 200 /\
  pixelY Scripted.label Scripted.dims1000 = 100 /\
  pixelW Scripted.label Scripted.dims1000 = 500 /\
  pixelH Scripted.label Scripted.dims1000 = 400 /\
  padW Scripted.label Scripted.dims1000 = 25 /\
  padH Scripted.label Scripted.dims1000 = 20 /\
  cropRegion Scripted.label Scripted.dims1000 =
    {| Region.left := 175; Region.top := 80;
       Region.width := 550; Region.height := 440 |}.
Proof. repeat split; vm_compute; reflexivity. Qed.

(** C7. Whatever the four numbers of the box and whatever the image
    dimensions, the padding is at least 1 pixel on each axis; this
    covers a base width or height that rounds to 0. *)
Theorem padding_at_least_one (bbox : BoundingBox) (dims : Dimensions.t) :
  1 <= padW bbox dims /\ 1 <= padH bbox dims.
Proof. split; [apply padW_floor | apply padH_floor]. Qed.

End MapperFacts.

(* ################################################################## *)
(** * Correctness of matching by derivatives *)

Module RegexFacts.

Import Regex.
Local Open Scope string_scope.

Lemma append_nil_r (s : string) : s ++ "" = s.
Proof. induction s as [|c s IH]; simpl; [|rewrite IH]; reflexivity. Qed.

Lemma append_assoc (s1 s2 s3 : string) : (s1 ++ s2) ++ s3 = s1 ++ (s2 ++ s3).
Proof. induction s1 as [|c s1 IH]; simpl; [|rewrite IH]; reflexivity. Qed.

Lemma append_eq_nil (s1 s2 : string) : s1 ++ s2 = "" -> s1 = "" /\ s2 = "".
Proof. destruct s1; simpl; intros H; [split; [reflexivity|assumption] | discriminate]. Qed.

Create HintDb regex.
#[local] Hint Constructors Matches : regex.

Lemma nullable_sound (r : regex) : nullable r = true -> Matches r "".
Proof.
  induction r; simpl; intros H; try discriminate; auto with regex.
  - apply andb_true_iff in H as [H1 H2].
    change "" with ("" ++ ""). auto with regex.
  - apply orb_true_iff in H as [H|H]; auto with regex.
Qed.

Lemma nullable_complete (r : regex) (s : string) :
  Matches r s -> s = "" -> nullable r = true.
Proof.
  induction 1; simpl; intros E; try reflexivity; try discriminate.
  - apply append_eq_nil in E as [E1 E2].
    rewrite IHMatches1, IHMatches2 by assumption. reflexivity.
  - rewrite IHMatches by assumption. reflexivity.
  - rewrite IHMatches by assumption. apply orb_true_r.
Qed.

Lemma nullable_spec (r : regex) : nullable r = true <-> Matches r "".
Proof.
  split; [apply nullable_sound | intros H; exact (nullable_complete H eq_refl)].
Qed.

Lemma deriv_sound (c : ascii) (r : regex) :
  forall s, Matches (deriv c r) s -> Matches r (String c s).
Proof.
  induction r; simpl; intros s H.
  - inversion H.
  - inversion H.
  - destruct (p c) eqn:Hp; inversion H; subst. constructor; assumption.
  - destruct (nullable r1) eqn:Hn.
    + inversion H; subst.
      * match goal with
        | Hs : Matches (Seq _ _) _ |- _ => inversion Hs; subst
        end.
        change (String c (?a ++ ?b)) with (String c a ++ b).
        auto with regex.
      * change (String c s) with ("" ++ String c s).
        constructor; [apply nullable_sound; assumption | auto].
    + inversion H; subst.
      change (String c (?a ++ ?b)) with (String c a ++ b).
      auto with regex.
  - inversion H; subst; auto with regex.
  - inversion H; subst.
    change (String c (?a ++ ?b)) with (String c a ++ b).
    auto with regex.
Qed.

Lemma deriv_complete (c : ascii) (r : regex) (w : string) :
  Matches r w -> forall t, w = String c t -> Matches (deriv c r) t.
Proof.
  induction 1; intros t E; simpl.
  - discriminate.
  - injection E as -> <-. rewrite H. constructor.
  - destruct s1 as [|c1 s1]; simpl in E.
    + subst s2.
      rewrite (nullable_complete H eq_refl).
      apply MAltR. apply IHMatches2. reflexivity.
    + injection E as -> <-.
      destruct (nullable r1).
      * apply MAltL. constructor; [apply IHMatches1; reflexivity | assumption].
      * constructor; [apply IHMatches1; reflexivity | assumption].
  - apply MAltL. auto.
  - apply MAltR. auto.
  - discriminate.
  - destruct s1 as [|c1 s1]; simpl in E.
    + apply IHMatches2 in E. exact E.
    + injection E as -> <-.
      constructor; [apply IHMatches1; reflexivity | assumption].
Qed.

Lemma deriv_spec (c : ascii) (r : regex) (s : string) :
  Matches (deriv c r) s <-> Matches r (String c s).
Proof.
  split; [apply deriv_sound | intros H; exact (deriv_complete H eq_refl)].
Qed.

(** [test] decides the language. *)
Lemma test_spec (r : regex) (s : string) : test r s = true <-> Matches r s.
Proof.
  revert r. induction s as [|c s IH]; intros r; simpl.
  - apply nullable_spec.
  - rewrite IH. apply deriv_spec.
Qed.

Lemma test_false (r : regex) (s : string) : test r s = false <-> ~ Matches r s.
Proof.
  rewrite <- test_spec. destruct (test r s); split; intros H; congruence.
Qed.

End RegexFacts.

(* ################################################################## *)
(** * The data-URI pattern *)

Module DataUriFacts.

Import Regex RegexFacts DataUri.
Local Open Scope string_scope.

Lemma matches_class (p : ascii -> bool) (s : string) :
  Matches (Class p) s <-> exists c, s = String c "" /\ p c = true.
Proof.
  split.
  - intros H. inversion H; subst. eauto.
  - intros (c & -> & Hp). constructor; assumption.
Qed.

Lemma matches_seq (r1 r2 : regex) (s : string) :
  Matches (Seq r1 r2) s <->
  exists s1 s2, s = s1 ++ s2 /\ Matches r1 s1 /\ Matches r2 s2.
Proof.
  split.
  - intros H. inversion H; subst. eauto.
  - intros (s1 & s2 & -> & H1 & H2). constructor; assumption.
Qed.

Lemma matches_lit (l s : string) : Matches (Lit l) s <-> s = l.
Proof.
  revert s. induction l as [|c l IH]; intros s; simpl.
  - split; intros H; [inversion H; reflexivity | subst; constructor].
  - rewrite matches_seq. split.
    + intros (s1 & s2 & -> & H1 & H2).
      apply matches_class in H1 as (c' & -> & Hc).
      apply Ascii.eqb_eq in Hc. apply IH in H2. subst. reflexivity.
    + intros ->. exists (String c ""), l. repeat split.
      * apply matches_class. exists c. split; [reflexivity | apply Ascii.eqb_refl].
      * apply IH. reflexivity.
Qed.

Lemma matches_star_class_sound (p : ascii -> bool) (r : regex) (s : string) :
  Matches r s -> r = Star (Class p) -> forall_chars p s = true.
Proof.
  induction 1; intros E; try discriminate; [reflexivity|].
  injection E as ->.
  apply matches_class in H as (c & -> & Hc). simpl.
  rewrite Hc, IHMatches2 by reflexivity. reflexivity.
Qed.

Lemma matches_star_class (p : ascii -> bool) (s : string) :
  Matches (Star (Class p)) s <-> forall_chars p s = true.
Proof.
  split.
  - intros H. exact (matches_star_class_sound H eq_refl).
  - induction s as [|c s IH]; simpl; intros H; [constructor|].
    apply andb_true_iff in H as [Hc Hs].
    change (String c s) with (String c "" ++ s).
    constructor; [constructor; assumption | auto].
Qed.

Lemma matches_plus_class (p : ascii -> bool) (s : string) :
  Matches (Plus (Class p)) s <-> s <> "" /\ forall_chars p s = true.
Proof.
  unfold Plus. rewrite matches_seq. split.
  - intros (s1 & s2 & -> & H1 & H2).
    apply matches_class in H1 as (c & -> & Hc).
    apply matches_star_class in H2. simpl. rewrite Hc, H2.
    split; [discriminate | reflexivity].
  - intros [Hne H]. destruct s as [|c s]; [congruence|].
    simpl in H. apply andb_true_iff in H as [Hc Hs].
    exists (String c ""), s. repeat split.
    + constructor; assumption.
    + apply matches_star_class; assumption.
Qed.

(** The language of the pattern is the set of well-shaped data URIs. *)
Lemma pattern_shape (s : string) :
  Matches pattern s <-> exists subtype payload, shaped s subtype payload.
Proof.
  unfold pattern, shaped. rewrite matches_seq. split.
  - intros (s1 & s2 & -> & H1 & H2).
    apply matches_lit in H1. subst s1.
    apply matches_seq in H2 as (t & s3 & -> & Ht & H3).
    apply matches_plus_class in Ht as [Hne Ht].
    apply matches_seq in H3 as (s4 & p & -> & H4 & Hp).
    apply matches_lit in H4. subst s4.
    apply matches_star_class in Hp.
    exists t, p. repeat split; assumption.
  - intros (t & p & -> & Hne & Ht & Hp).
    exists "data:image/", (t ++ ";base64," ++ p). repeat split.
    + apply matches_lit. reflexivity.
    + apply matches_seq. exists t, (";base64," ++ p). repeat split.
      * apply matches_plus_class. split; assumption.
      * apply matches_seq. exists ";base64,", p. repeat split.
        -- apply matches_lit. reflexivity.
        -- apply matches_star_class. assumption.
Qed.

Lemma span_word_shaped (t rest : string) :
  forall_chars is_word t = true ->
  span_word (t ++ ";" ++ rest) = (t, ";" ++ rest).
Proof.
  induction t as [|c t IH]; simpl; intros H; [reflexivity|].
  apply andb_true_iff in H as [Hc Ht].
  rewrite Hc. simpl in IH. rewrite IH by assumption. reflexivity.
Qed.

(** On a well-shaped input the groups are the type and the payload. *)
Lemma groups_shaped (s subtype payload : string) :
  shaped s subtype payload -> groups s = (subtype, payload).
Proof.
  intros (-> & _ & Ht & _). unfold groups.
  cbn [drop append].
  change (subtype ++ String ";" (String "b" ?x))
    with (subtype ++ ";" ++ String "b" x).
  rewrite span_word_shaped by assumption.
  reflexivity.
Qed.

Lemma String_match_spec (s : string) :
  match String_match s with
  | Some (subtype, payload) => shaped s subtype payload
  | None => ~ Matches pattern s
  end.
Proof.
  unfold String_match. destruct (test pattern s) eqn:Ht.
  - apply test_spec, pattern_shape in Ht as (t & p & Hs).
    rewrite (groups_shaped Hs). exact Hs.
  - apply test_false. exact Ht.
Qed.

Example png_groups :
  String_match Scripted.png = Some ("png", "iVBORw0KGgo=").
Proof. reflexivity. Qed.

(** A payload with a line break is not matched: [.] stops at it and [$]
    is the end of the input. *)
Example line_break_not_matched :
  String_match (Scripted.png ++ String (ascii_of_nat 10) "") = None.
Proof. reflexivity. Qed.

(** A media type with a character outside [\w], here [+], is not
    matched, whatever the payload. *)
Lemma svg_xml_not_matched (payload : string) :
  ~ Matches pattern ("data:image/svg+xml;base64," ++ payload).
Proof.
  intros H. apply pattern_shape in H as (t & p & E & Hne & Ht & _).
  cbn [append] in E. injection E as E.
  destruct t as [|c1 t]; [congruence|].
  cbn [append] in E. injection E as <- E.
  destruct t as [|c2 t]; [discriminate E|].
  cbn [append] in E. injection E as <- E.
  destruct t as [|c3 t]; [discriminate E|].
  cbn [append] in E. injection E as <- E.
  destruct t as [|c4 t]; [discriminate E|].
  cbn [append] in E. injection E as <- E.
  cbn in Ht. discriminate Ht.
Qed.

End DataUriFacts.

(* ################################################################## *)
(** * Properties of the pipeline *)

Module WineFacts.

Import Run Wine.
Local Open Scope string_scope.

Lemma extracted_app (evs1 evs2 : list Event) :
  extracted (evs1 ++ evs2)%list = (extracted evs1 ++ extracted evs2)%list.
Proof.
  induction evs1 as [|ev evs1 IH]; simpl; [reflexivity|].
  destruct ev; simpl; rewrite IH; reflexivity.
Qed.

Lemma survivors_length (labels : list JSONValue) (failed : list bool) :
  List.length failed = List.length labels ->
  (List.length (survivors labels failed) + failures failed)%nat
  = List.length labels.
Proof.
  revert failed. induction labels as [|b labels IH]; intros [|f failed];
    simpl; intros E; try discriminate; [reflexivity|].
  injection E as E. specialize (IH _ E).
  unfold failures in *. destruct f; simpl; lia.
Qed.

Lemma crop_calls_app (evs1 evs2 : list Event) :
  Trace.count Trace.is_crop_call (evs1 ++ evs2)%list
  = (Trace.count Trace.is_crop_call evs1
     + Trace.count Trace.is_crop_call evs2)%nat.
Proof. unfold Trace.count. rewrite filter_app, length_app. reflexivity. Qed.

(** An element that is a box has the four numbers of the box as its
    tuple. *)
Lemma as_box_tuple (v : JSONValue) (box : BoundingBox) :
  as_box v = Some box ->
  tuple_of v = (Some (JNumber (ymin box)), Some (JNumber (xmin box)),
                Some (JNumber (ymax box)), Some (JNumber (xmax box))).
Proof.
  unfold as_box, tuple_of.
  destruct (prop v "ymin") as [[]|]; try discriminate;
    destruct (prop v "xmin") as [[]|]; try discriminate;
    destruct (prop v "ymax") as [[]|]; try discriminate;
    destruct (prop v "xmax") as [[]|]; try discriminate.
  intros E. injection E as <-. reflexivity.
Qed.

Lemma as_box_not_null (v : JSONValue) (box : BoundingBox) :
  as_box v = Some box -> is_null v = false.
Proof. destruct v; try reflexivity. discriminate. Qed.

Lemma as_box_box_value (box : BoundingBox) : as_box (box_value box) = Some box.
Proof. destruct box. reflexivity. Qed.


Section Facts.
Variable P : Platform.

Lemma labelFailures_length buf dims (labels : list JSONValue) :
  forall st,
    List.length (labelFailures P buf dims labels st) = List.length labels.
Proof.
  induction labels as [|b labels IH]; intros st; simpl; [reflexivity|].
  destruct (processLabel P buf dims b ([], []) st) as [[acc|e] st'];
    simpl; rewrite IH; reflexivity.
Qed.

(** The step of the loop after a crop call: either the crop is named,
    stored and pushed, or the step throws; the events added hold the one
    crop call. *)
Lemma step_after_crop buf dims (bbox : JSONValue) (ev : Event)
    (f : World P -> (exn + Buffer P) * World P) (st : State (World P)) :
  Trace.is_crop_call ev = true ->
  extracted [ev] = mapped dims [bbox] ->
  cropImageSharp P buf bbox dims = call ev f ->
  exists evs st',
    trace st' = (trace st ++ evs)%list
    /\ extracted evs = mapped dims [bbox]
    /\ Trace.count Trace.is_crop_call evs = 1%nat
    /\ ((exists c, CropResult.bbox c = tuple_of bbox /\
           forall acc, processLabel P buf dims bbox acc st
                       = (Returned ((fst acc ++ [c])%list,
                                    (snd acc ++ [tuple_of bbox])%list), st'))
        \/ (exists e, forall acc,
              processLabel P buf dims bbox acc st = (Thrown e, st'))).
Proof.
  intros Hev Hx Hc. unfold processLabel. rewrite Hc.
  unfold bind, call, call_total, ret.
  destruct st as [w tr]; cbn [world trace].
  destruct (f w) as [[e|cropped] w1].
  - exists [ev], {| world := w1; trace := (tr ++ [ev])%list |}.
    split; [reflexivity|]. split; [exact Hx|].
    split; [unfold Trace.count; cbn; rewrite Hev; reflexivity|].
    right. exists e. reflexivity.
  - cbn [world trace].
    destruct (nanoid P w1) as [cropId w2]. cbn [world trace].
    destruct (storagePut P ("wine-crops/" ++ cropId ++ ".png") cropped
                "image/png" w2) as [[e|u] w3].
    + exists [ev; CallNanoid;
              CallStoragePut ("wine-crops/" ++ cropId ++ ".png") "image/png"],
        {| world := w3;
           trace := (tr ++ [ev; CallNanoid;
                            CallStoragePut ("wine-crops/" ++ cropId ++ ".png")
                              "image/png"])%list |}.
      split; [reflexivity|].
      split; [destruct ev; try discriminate Hev; cbn in *; exact Hx|].
      split; [unfold Trace.count; cbn; rewrite Hev; reflexivity|].
      right. exists e. intros acc. rewrite <- !app_assoc. reflexivity.
    + exists [ev; CallNanoid;
              CallStoragePut ("wine-crops/" ++ cropId ++ ".png") "image/png"],
        {| world := w3;
           trace := (tr ++ [ev; CallNanoid;
                            CallStoragePut ("wine-crops/" ++ cropId ++ ".png")
                              "image/png"])%list |}.
      split; [reflexivity|].
      split; [destruct ev; try discriminate Hev; cbn in *; exact Hx|].
      split; [unfold Trace.count; cbn; rewrite Hev; reflexivity|].
      left. eexists. split; [|intros acc; rewrite <- !app_assoc; reflexivity].
      reflexivity.
Qed.

(** One element of the loop: either the step returns with one crop pushed
    on each array, or it throws and nothing is pushed.  Which of the
    two, and the state reached, do not depend on the arrays.  An element
    that is not [null] reached one crop call; an element that is a box was
    mapped. *)
Lemma processLabel_cases buf dims (bbox : JSONValue) (st : State (World P)) :
  exists evs st',
    trace st' = (trace st ++ evs)%list
    /\ extracted evs = mapped dims [bbox]
    /\ Trace.count Trace.is_crop_call evs
       = (if is_null bbox then 0 else 1)%nat
    /\ ((exists c, CropResult.bbox c = tuple_of bbox /\
           forall acc, processLabel P buf dims bbox acc st
                       = (Returned ((fst acc ++ [c])%list,
                                    (snd acc ++ [tuple_of bbox])%list), st'))
        \/ (exists e, forall acc,
              processLabel P buf dims bbox acc st = (Thrown e, st'))).
Proof.
  destruct (as_box bbox) as [box|] eqn:Hb.
  - rewrite (as_box_not_null bbox Hb).
    apply (@step_after_crop buf dims bbox
             (CallExtract (Mapper.cropRegion box dims))
             (sharp_extract_png P buf (Mapper.cropRegion box dims)) st).
    + reflexivity.
    + cbn. rewrite Hb. reflexivity.
    + unfold cropImageSharp. rewrite Hb. reflexivity.
  - destruct bbox as [| b | q | s | elems | fields];
      [ exists [], st; rewrite app_nil_r; cbn [mapped is_null];
        repeat split; right; exists (Error "TypeError"); intros acc;
        unfold processLabel, cropImageSharp; rewrite Hb; reflexivity
      | .. ];
      cbn [is_null];
      match goal with
      | |- context [processLabel P buf dims ?v _ st] =>
          apply (@step_after_crop buf dims v (CallExtractCoerced v)
                   (sharp_extract_png_coerced P buf v dims) st);
            [ reflexivity
            | cbn [mapped extracted]; rewrite Hb; reflexivity
            | unfold cropImageSharp; rewrite Hb; reflexivity ]
      end.
Qed.

(** The loop never throws; it returns the arrays it was given extended
    by one entry per surviving element, in order; every element that is
    not [null] reached one crop call. *)
Lemma forLabels_run buf dims (labels : list JSONValue) :
  forall acc st,
    exists cs evs st',
      forLabels P buf dims labels acc st
      = (Returned ((fst acc ++ cs)%list,
                   (snd acc ++ map tuple_of
                      (survivors labels
                         (labelFailures P buf dims labels st)))%list), st')
      /\ map CropResult.bbox cs
         = map tuple_of
             (survivors labels (labelFailures P buf dims labels st))
      /\ trace st' = (trace st ++ evs)%list
      /\ extracted evs = mapped dims labels
      /\ Trace.count Trace.is_crop_call evs
         = List.length (filter (fun v => negb (is_null v)) labels).
Proof.
  induction labels as [|b labels IH]; intros acc st.
  - exists [], [], st. simpl. rewrite !app_nil_r. destruct acc; auto.
  - cbn [forLabels labelFailures].
    destruct (processLabel_cases buf dims b st)
      as (evs1 & st1 & Ht1 & Hx1 & Hn1 & [(c & Hc & Hrun) | (e & Hrun)]).
    + unfold bind at 1. unfold try_catch. rewrite !Hrun.
      destruct (IH ((fst acc ++ [c])%list, (snd acc ++ [tuple_of b])%list) st1)
        as (cs & evs2 & st' & Hrest & Hmap & Ht2 & Hx2 & Hn2).
      exists (c :: cs), (evs1 ++ evs2)%list, st'. cbn [fst snd] in Hrest.
      rewrite Hrest, <- !app_assoc. cbn [survivors map app].
      repeat split.
      * rewrite Hc, Hmap. reflexivity.
      * rewrite Ht2, Ht1, <- app_assoc. reflexivity.
      * rewrite extracted_app, Hx1, Hx2. cbn [mapped].
        destruct (as_box b); reflexivity.
      * rewrite crop_calls_app, Hn1, Hn2. cbn [filter].
        destruct (is_null b); reflexivity.
    + unfold bind at 1. unfold try_catch. rewrite !Hrun.
      unfold bind at 1, console_error, emit, ret.
      set (st2 := {| world := world st1; trace := _ |}).
      destruct (IH acc st2)
        as (cs & evs2 & st' & Hrest & Hmap & Ht2 & Hx2 & Hn2).
      exists cs,
        (evs1 ++ ConsoleError "Failed to process individual label:" :: evs2)%list,
        st'.
      rewrite Hrest. cbn [survivors map].
      repeat split; [assumption| | |].
      * rewrite Ht2. subst st2. cbn [trace].
        rewrite Ht1, <- !app_assoc. reflexivity.
      * rewrite extracted_app, Hx1. cbn [extracted]. rewrite Hx2.
        cbn [mapped]. destruct (as_box b); reflexivity.
      * rewrite crop_calls_app, Hn1.
        change (ConsoleError "Failed to process individual label:" :: evs2)
          with ([ConsoleError "Failed to process individual label:"] ++ evs2)%list.
        rewrite crop_calls_app, Hn2. cbn [filter].
        destruct (is_null b); reflexivity.
Qed.

Lemma base64ToBuffer_matched (uri : string) :
  Regex.Matches DataUri.pattern uri ->
  base64ToBuffer P uri = inr (Buffer_from P (snd (DataUri.groups uri))).
Proof.
  intros H. apply RegexFacts.test_spec in H.
  unfold base64ToBuffer, DataUri.String_match. rewrite H. reflexivity.
Qed.

Lemma base64ToBuffer_unmatched (s : string) :
  ~ Regex.Matches DataUri.pattern s ->
  base64ToBuffer P s = inl (Error "Invalid base64 image data").
Proof.
  intros H. apply RegexFacts.test_false in H.
  unfold base64ToBuffer, DataUri.String_match. rewrite H. reflexivity.
Qed.

(** What [detectWineLabels] does once the model has answered. *)
Lemma detectWineLabels_run (uri : string) (st : State (World P))
    (response : Response) (w' : World P) :
  invokeLLM P uri (world st) = (inr response, w') ->
  detectWineLabels P uri st =
    match content_text (response_content response) with
    | None =>
        (Returned [],
         {| world := w'; trace := (trace st ++ [CallInvokeLLM uri])%list |})
    | Some text =>
        match JSON_parse P text with
        | Some v =>
            (Returned (array_or_empty v),
             {| world := w'; trace := (trace st ++ [CallInvokeLLM uri])%list |})
        | None =>
            (Returned [],
             {| world := w';
                trace := ((trace st ++ [CallInvokeLLM uri])
                          ++ [ConsoleError "Failed to parse LLM response:"])%list |})
        end
    end.
Proof.
  intros H. unfold detectWineLabels, bind at 1, call. rewrite H.
  unfold try_catch.
  destruct (content_text (response_content response)) as [text|];
    [|reflexivity].
  unfold bind, lift. destruct (JSON_parse P text) as [v|]; reflexivity.
Qed.

(** The pipeline on a well-shaped input for which no box came back. *)
Lemma processWineImage_empty (uri : string) (st st1 : State (World P)) :
  Regex.Matches DataUri.pattern uri ->
  detectWineLabels P uri st = (Returned [], st1) ->
  processWineImage P uri st =
    (Returned {| ProcessingResult.crops := [];
                 ProcessingResult.bboxes := [] |}, st1).
Proof.
  intros Hm Hd. unfold processWineImage, try_catch, bind at 1.
  rewrite (base64ToBuffer_matched Hm). cbn [lift ret].
  unfold bind at 1. rewrite Hd. reflexivity.
Qed.

(** The pipeline on a well-shaped input once the dimensions are read:
    its result is what the loop returns. *)
Lemma processWineImage_boxes (uri : string) (st st1 st2 : State (World P))
    (labels : list JSONValue) (dims : Dimensions.t) :
  Regex.Matches DataUri.pattern uri ->
  detectWineLabels P uri st = (Returned labels, st1) ->
  labels <> [] ->
  getImageDimensions P (Buffer_from P (snd (DataUri.groups uri))) st1
    = (Returned dims, st2) ->
  exists cs evs st3,
    forLabels P (Buffer_from P (snd (DataUri.groups uri))) dims labels
      ([], []) st2
    = (Returned
         (cs, map tuple_of
                (survivors labels
                   (labelFailures P (Buffer_from P (snd (DataUri.groups uri)))
                      dims labels st2))), st3)
    /\ processWineImage P uri st =
         (Returned
            {| ProcessingResult.crops := cs;
               ProcessingResult.bboxes :=
                 map tuple_of
                   (survivors labels
                      (labelFailures P (Buffer_from P (snd (DataUri.groups uri)))
                         dims labels st2)) |}, st3)
    /\ map CropResult.bbox cs
       = map tuple_of
           (survivors labels
              (labelFailures P (Buffer_from P (snd (DataUri.groups uri)))
                 dims labels st2))
    /\ trace st3 = (trace st2 ++ evs)%list
    /\ extracted evs = mapped dims labels
    /\ Trace.count Trace.is_crop_call evs
       = List.length (filter (fun v => negb (is_null v)) labels).
Proof.
  intros Hm Hd Hne Hg.
  destruct (forLabels_run (Buffer_from P (snd (DataUri.groups uri))) dims
              labels ([], []) st2)
    as (cs & evs & st3 & Hrun & Hmap & Ht & Hx & Hn).
  cbn [fst snd app] in Hrun.
  exists cs, evs, st3. split; [exact Hrun|]. split; [|auto].
  unfold processWineImage, try_catch, bind at 1.
  rewrite (base64ToBuffer_matched Hm). cbn [lift ret].
  unfold bind at 1. rewrite Hd.
  destruct labels as [|b labels]; [congruence|].
  cbn [List.length Nat.eqb].
  unfold bind at 1. rewrite Hg.
  unfold bind at 1. rewrite Hrun. reflexivity.
Qed.

End Facts.

(** C9. [base64ToBuffer] fails, with the message "Invalid base64 image
    data", exactly on the inputs the pattern does not match.  An input
    with an empty payload is matched, and decoded from the empty
    payload; an input whose media type is [svg+xml] is not matched,
    whatever its payload. *)
Theorem base64ToBuffer_fails_iff_unmatched (P : Platform) :
  (forall s : string,
      base64ToBuffer P s = inl (Error "Invalid base64 image data")
      <-> ~ Regex.Matches DataUri.pattern s)
  /\ base64ToBuffer P "data:image/png;base64," = inr (Buffer_from P "")
  /\ (forall payload : string,
        base64ToBuffer P ("data:image/svg+xml;base64," ++ payload)
        = inl (Error "Invalid base64 image data")).
Proof.
  split; [|split].
  - intros s. split.
    + intros H Hm. rewrite (base64ToBuffer_matched P Hm) in H. discriminate.
    + apply base64ToBuffer_unmatched.
  - reflexivity.
  - intros payload. apply base64ToBuffer_unmatched.
    apply DataUriFacts.svg_xml_not_matched.
Qed.

(** C6. On an input the pattern does not match, [processWineImage]
    throws "Invalid base64 image data"; the world is the one it started
    from and the only event of the run is the [console.error] of the
    outer [catch]: the model was not invoked and nothing was read,
    cropped or stored. *)
Theorem processWineImage_rejects_malformed_input
    (P : Platform) (s : string) (st : State (World P)) :
  ~ Regex.Matches DataUri.pattern s ->
  processWineImage P s st =
    (Thrown (Error "Invalid base64 image data"),
     {| world := world st;
        trace := (trace st ++ [ConsoleError "Failed to process wine image:"])%list |}).
Proof.
  intros H. unfold processWineImage, try_catch, bind at 1.
  rewrite (base64ToBuffer_unmatched P H). reflexivity.
Qed.

Lemma processWineImage_rejects_malformed_input_witness :
  processWineImage
    (Scripted.platform (Scripted.reply_text "[]") (fun _ => None)
       Scripted.full_metadata Scripted.dims1000)
    "iVBORw0KGgo=" Scripted.start =
    (Thrown (Error "Invalid base64 image data"),
     {| world := O;
        trace := [ConsoleError "Failed to process wine image:"] |}).
Proof.
  apply (@processWineImage_rejects_malformed_input
           (Scripted.platform (Scripted.reply_text "[]") (fun _ => None)
              Scripted.full_metadata Scripted.dims1000)
           "iVBORw0KGgo=" Scripted.start).
  apply RegexFacts.test_false. reflexivity.
Defined.

(** C5. On a well-shaped input, when the model has answered and the
    content of the answer is missing, is not a string, is not JSON or is
    JSON that is not an array, [detectWineLabels] returns the empty list
    and [processWineImage] returns [{crops: [], bboxes: []}]; both stop
    in the world the model call left, and the events of the run are the
    model call and at most log lines: no metadata read, no crop, no
    store. *)
Theorem unusable_content_yields_empty_result
    (P : Platform) (uri : string) (st : State (World P))
    (response : Response) (w' : World P) :
  Regex.Matches DataUri.pattern uri ->
  invokeLLM P uri (world st) = (inr response, w') ->
  Unusable P (response_content response) ->
  exists log,
    detectWineLabels P uri st =
      (Returned [],
       {| world := w'; trace := (trace st ++ CallInvokeLLM uri :: log)%list |})
    /\ processWineImage P uri st =
         (Returned {| ProcessingResult.crops := [];
                      ProcessingResult.bboxes := [] |},
          {| world := w'; trace := (trace st ++ CallInvokeLLM uri :: log)%list |})
    /\ existsb image_effect (CallInvokeLLM uri :: log) = false.
Proof.
  intros Hm Hllm Hu.
  assert (exists log,
    detectWineLabels P uri st =
      (Returned [],
       {| world := w'; trace := (trace st ++ CallInvokeLLM uri :: log)%list |})
    /\ existsb image_effect (CallInvokeLLM uri :: log) = false)
    as (log & Hd & Hlog).
  { rewrite (detectWineLabels_run P uri st Hllm).
    destruct Hu as [ | | text Hp | text v Hp Hv]; cbn [content_text].
    - exists []. split; reflexivity.
    - exists []. split; reflexivity.
    - destruct (String.eqb text ""); [exists []; split; reflexivity|].
      rewrite Hp. exists [ConsoleError "Failed to parse LLM response:"].
      rewrite <- app_assoc. split; reflexivity.
    - destruct (String.eqb text ""); [exists []; split; reflexivity|].
      rewrite Hp. exists []. split; [|reflexivity].
      destruct v; try reflexivity. exfalso. eapply Hv. reflexivity. }
  exists log. split; [exact Hd|]. split; [|exact Hlog].
  apply processWineImage_empty; assumption.
Qed.

Lemma unusable_content_yields_empty_result_witness :
  exists log,
    detectWineLabels
      (Scripted.platform (Scripted.reply_text "no labels") (fun _ => None)
         Scripted.full_metadata Scripted.dims1000)
      Scripted.png Scripted.start =
      (Returned [],
       {| world := O; trace := ([] ++ CallInvokeLLM Scripted.png :: log)%list |})
    /\ processWineImage
         (Scripted.platform (Scripted.reply_text "no labels") (fun _ => None)
            Scripted.full_metadata Scripted.dims1000)
         Scripted.png Scripted.start =
         (Returned {| ProcessingResult.crops := [];
                      ProcessingResult.bboxes := [] |},
          {| world := O; trace := ([] ++ CallInvokeLLM Scripted.png :: log)%list |})
    /\ existsb image_effect (CallInvokeLLM Scripted.png :: log) = false.
Proof.
  apply (@unusable_content_yields_empty_result
           (Scripted.platform (Scripted.reply_text "no labels") (fun _ => None)
              Scripted.full_metadata Scripted.dims1000)
           Scripted.png Scripted.start (Scripted.reply_text "no labels") O).
  - apply RegexFacts.test_spec. reflexivity.
  - reflexivity.
  - apply MalformedJSON. reflexivity.
Defined.





(** C2. On a well-shaped input for which the detector returned N
    elements and the dimensions were read, if the crop-and-store step
    throws for exactly one element of the run, [processWineImage] returns
    (it does not throw) with N-1 entries in [crops] and N-1 entries in
    [bboxes]; the [bbox] of the i-th crop is the i-th entry of [bboxes],
    for every i; the i-th entry is the tuple of the four properties
    [ymin], [xmin], [ymax], [xmax] of the i-th element whose step did not
    throw, and when that element is a box, the four numbers of the box. *)
Theorem one_failed_box_is_skipped
    (P : Platform) (uri : string) (st st1 st2 : State (World P))
    (labels : list JSONValue) (dims : Dimensions.t) :
  Regex.Matches DataUri.pattern uri ->
  detectWineLabels P uri st = (Returned labels, st1) ->
  getImageDimensions P (Buffer_from P (snd (DataUri.groups uri))) st1
    = (Returned dims, st2) ->
  failures (labelFailures P (Buffer_from P (snd (DataUri.groups uri)))
              dims labels st2) = 1%nat ->
  exists result st3,
    processWineImage P uri st = (Returned result, st3)
    /\ List.length (ProcessingResult.crops result)
       = (List.length labels - 1)%nat
    /\ List.length (ProcessingResult.bboxes result)
       = (List.length labels - 1)%nat
    /\ map CropResult.bbox (ProcessingResult.crops result)
       = ProcessingResult.bboxes result
    /\ (forall i c,
          nth_error (ProcessingResult.crops result) i = Some c ->
          nth_error (ProcessingResult.bboxes result) i
          = Some (CropResult.bbox c))
    /\ ProcessingResult.bboxes result
       = map (fun v => (prop v "ymin", prop v "xmin",
                        prop v "ymax", prop v "xmax"))
           (survivors labels
              (labelFailures P (Buffer_from P (snd (DataUri.groups uri)))
                 dims labels st2))
    /\ (forall i v box,
          nth_error
            (survivors labels
               (labelFailures P (Buffer_from P (snd (DataUri.groups uri)))
                  dims labels st2)) i = Some v ->
          as_box v = Some box ->
          nth_error (ProcessingResult.bboxes result) i
          = Some (Some (JNumber (ymin box)), Some (JNumber (xmin box)),
                  Some (JNumber (ymax box)), Some (JNumber (xmax box)))
          /\ exists c,
               nth_error (ProcessingResult.crops result) i = Some c
               /\ CropResult.bbox c
                  = (Some (JNumber (ymin box)), Some (JNumber (xmin box)),
                     Some (JNumber (ymax box)), Some (JNumber (xmax box)))).
Proof.
  intros Hm Hd Hg Hone.
  assert (Hne : labels <> []).
  { intros ->. discriminate Hone. }
  destruct (@processWineImage_boxes P _ _ _ _ _ _ Hm Hd Hne Hg)
    as (cs & evs & st3 & _ & Hrun & Hmap & _).
  assert (Hlen := @survivors_length labels _
            (labelFailures_length P (Buffer_from P (snd (DataUri.groups uri)))
               dims labels st2)).
  rewrite Hone in Hlen.
  eexists _, st3. split; [exact Hrun|].
  cbn [ProcessingResult.crops ProcessingResult.bboxes].
  assert (Hcs : List.length cs = (List.length labels - 1)%nat).
  { rewrite <- (length_map CropResult.bbox), Hmap, length_map. lia. }
  split; [exact Hcs|].
  split; [rewrite length_map; lia|].
  split; [exact Hmap|].
  split; [intros i c Hi; rewrite <- Hmap; apply map_nth_error; exact Hi|].
  split; [reflexivity|].
  intros i v box Hi Hb.
  assert (Hentry : nth_error
            (map tuple_of
               (survivors labels
                  (labelFailures P (Buffer_from P (snd (DataUri.groups uri)))
                     dims labels st2))) i
          = Some (Some (JNumber (ymin box)), Some (JNumber (xmin box)),
                  Some (JNumber (ymax box)), Some (JNumber (xmax box)))).
  { rewrite <- (as_box_tuple v Hb). apply map_nth_error. exact Hi. }
  split; [exact Hentry|].
  rewrite <- Hmap in Hentry.
  destruct (nth_error cs i) as [c|] eqn:Hc.
  - exists c. split; [reflexivity|].
    rewrite (map_nth_error CropResult.bbox _ _ Hc) in Hentry.
    congruence.
  - apply nth_error_None in Hc.
    assert (Hsome : nth_error (map CropResult.bbox cs) i <> None)
      by congruence.
    apply nth_error_Some in Hsome. rewrite length_map in Hsome. lia.
Qed.

Lemma one_failed_box_is_skipped_witness :
  exists result st3,
    processWineImage
      (ScriptedFaults.finds
         [Scripted.label; Scripted.inverted; Scripted.degenerate])
      Scripted.png Scripted.start = (Returned result, st3)
    /\ List.length (ProcessingResult.crops result) = 2%nat
    /\ List.length (ProcessingResult.bboxes result) = 2%nat
    /\ map CropResult.bbox (ProcessingResult.crops result)
       = ProcessingResult.bboxes result
    /\ (forall i c,
          nth_error (ProcessingResult.crops result) i = Some c ->
          nth_error (ProcessingResult.bboxes result) i
          = Some (CropResult.bbox c))
    /\ ProcessingResult.bboxes result
       = [ (Some (JNumber 100), Some (JNumber 200),
            Some (JNumber 500), Some (JNumber 700));
           (Some (JNumber 100), Some (JNumber 300),
            Some (JNumber 500), Some (JNumber 300)) ]
    /\ (forall i v box,
          nth_error [box_value Scripted.label; box_value Scripted.degenerate] i
          = Some v ->
          as_box v = Some box ->
          nth_error (ProcessingResult.bboxes result) i
          = Some (Some (JNumber (ymin box)), Some (JNumber (xmin box)),
                  Some (JNumber (ymax box)), Some (JNumber (xmax box)))
          /\ exists c,
               nth_error (ProcessingResult.crops result) i = Some c
               /\ CropResult.bbox c
                  = (Some (JNumber (ymin box)), Some (JNumber (xmin box)),
                     Some (JNumber (ymax box)), Some (JNumber (xmax box)))).
Proof.
  apply (@one_failed_box_is_skipped
           (ScriptedFaults.finds
              [Scripted.label; Scripted.inverted; Scripted.degenerate])
           Scripted.png Scripted.start
           {| world := O; trace := [CallInvokeLLM Scripted.png] |}
           {| world := O; trace := [CallInvokeLLM Scripted.png; CallMetadata] |}
           [box_value Scripted.label; box_value Scripted.inverted;
            box_value Scripted.degenerate]
           Scripted.dims1000).
  - apply RegexFacts.test_spec. reflexivity.
  - reflexivity.
  - reflexivity.
  - reflexivity.
Defined.

End WineFacts.

(* ################################################################## *)
(** * Further properties of the coordinate mapping *)

Module MapperCoverage.

Import Mapper.




(** The floor of 5% of an integer is its quotient by 20. *)
Lemma floor_of_ratio (n : Z) : Qfloor (inject_Z n * padRatio) = n / 20.
Proof.
  rewrite Zdiv_Qdiv. apply Qfloor_comp.
  unfold padRatio. change (inject_Z 20) with 20%Q.
  unfold Qeq, Qdiv, Qmult, Qinv, inject_Z. simpl. lia.
Qed.

(** X2. The padding of each axis is the base extent divided by 20 and
    rounded down, and 1 when that is less than 1; the rectangle handed to
    [extract] is never wider or higher than the base extent plus twice
    that padding. *)
Theorem padding_is_a_twentieth (bbox : BoundingBox) (dims : Dimensions.t) :
  padW bbox dims = Z.max 1 (pixelW bbox dims / 20)
  /\ padH bbox dims = Z.max 1 (pixelH bbox dims / 20)
  /\ Region.width (cropRegion bbox dims)
     <= pixelW bbox dims + 2 * Z.max 1 (pixelW bbox dims / 20)
  /\ Region.height (cropRegion bbox dims)
     <= pixelH bbox dims + 2 * Z.max 1 (pixelH bbox dims / 20).
Proof.
  assert (Hw : padW bbox dims = Z.max 1 (pixelW bbox dims / 20))
    by (unfold padW; rewrite floor_of_ratio; reflexivity).
  assert (Hh : padH bbox dims = Z.max 1 (pixelH bbox dims / 20))
    by (unfold padH; rewrite floor_of_ratio; reflexivity).
  repeat split; try assumption.
  - cbn [cropRegion Region.width]. unfold cropW. rewrite Hw. lia.
  - cbn [cropRegion Region.height]. unfold cropH. rewrite Hh. lia.
Qed.

End MapperCoverage.

(* ################################################################## *)
(** * Further properties of [base64ToBuffer] *)

Module DataUriRoundTrip.

Import Regex RegexFacts DataUri DataUriFacts.
Local Open Scope string_scope.

Lemma forall_chars_app (p : ascii -> bool) (s1 s2 : string) :
  forall_chars p (s1 ++ s2) = forall_chars p s1 && forall_chars p s2.
Proof.
  induction s1 as [|c s1 IH]; simpl; [reflexivity|].
  rewrite IH. apply andb_assoc.
Qed.

Lemma word_is_dot (c : ascii) : is_word c = true -> is_dot c = true.
Proof.
  destruct c as [[] [] [] [] [] [] [] []]; vm_compute; congruence.
Qed.

Lemma forall_chars_word_dot (s : string) :
  forall_chars is_word s = true -> forall_chars is_dot s = true.
Proof.
  induction s as [|c s IH]; simpl; [reflexivity|].
  intros H. apply andb_true_iff in H as [Hc Hs].
  rewrite (word_is_dot c Hc), IH by assumption. reflexivity.
Qed.

(** X3. A data URI built from a media subtype of word characters and a
    payload without line breaks is matched with exactly these two groups,
    and [base64ToBuffer] decodes exactly the payload: what follows the
    first [;base64,]. *)
Theorem shaped_uri_decodes_its_payload (P : Platform) (subtype payload : string) :
  subtype <> "" ->
  forall_chars is_word subtype = true ->
  forall_chars is_dot payload = true ->
  String_match ("data:image/" ++ subtype ++ ";base64," ++ payload)
  = Some (subtype, payload)
  /\ Wine.base64ToBuffer P ("data:image/" ++ subtype ++ ";base64," ++ payload)
     = inr (Buffer_from P payload).
Proof.
  intros Hne Hw Hd.
  assert (Hs : shaped ("data:image/" ++ subtype ++ ";base64," ++ payload)
                 subtype payload) by (repeat split; assumption).
  assert (Hm : Matches pattern
                 ("data:image/" ++ subtype ++ ";base64," ++ payload))
    by (apply pattern_shape; eauto).
  assert (E : String_match ("data:image/" ++ subtype ++ ";base64," ++ payload)
              = Some (subtype, payload)).
  { unfold String_match. apply test_spec in Hm. rewrite Hm.
    rewrite (groups_shaped Hs). reflexivity. }
  split; [exact E|].
  unfold Wine.base64ToBuffer. rewrite E. reflexivity.
Qed.

Lemma shaped_uri_decodes_its_payload_witness :
  String_match ("data:image/" ++ "jpeg" ++ ";base64," ++ "/9j/4AAQSkZJRg==")
  = Some ("jpeg", "/9j/4AAQSkZJRg==")
  /\ Wine.base64ToBuffer (ScriptedFaults.finds [])
       ("data:image/" ++ "jpeg" ++ ";base64," ++ "/9j/4AAQSkZJRg==")
     = inr "/9j/4AAQSkZJRg==".
Proof.
  apply (@shaped_uri_decodes_its_payload (ScriptedFaults.finds [])
           "jpeg" "/9j/4AAQSkZJRg==").
  - discriminate.
  - reflexivity.
  - reflexivity.
Defined.

(** X4. An input with a line feed or a carriage return anywhere, in the
    payload or before it, is refused with "Invalid base64 image data": a
    payload wrapped over several lines is not accepted. *)
Theorem line_break_is_refused (P : Platform) (s : string) :
  forall_chars is_dot s = false ->
  Wine.base64ToBuffer P s = inl (Error "Invalid base64 image data").
Proof.
  intros H. apply WineFacts.base64ToBuffer_unmatched.
  intros Hm. apply pattern_shape in Hm as (t & p & -> & _ & Ht & Hp).
  rewrite !forall_chars_app, (forall_chars_word_dot t Ht), Hp in H.
  discriminate H.
Qed.

Lemma line_break_is_refused_witness :
  Wine.base64ToBuffer (ScriptedFaults.finds [])
    ("data:image/png;base64,iVBORw0K" ++ String (ascii_of_nat 10) "Ggo=")
  = inl (Error "Invalid base64 image data").
Proof.
  apply (@line_break_is_refused (ScriptedFaults.finds [])
           ("data:image/png;base64,iVBORw0K" ++ String (ascii_of_nat 10) "Ggo=")).
  reflexivity.
Defined.

End DataUriRoundTrip.

(* ################################################################## *)
(** * Further properties of the pipeline *)

Module WineRuns.

Import Run Wine Trace.
Local Open Scope string_scope.

Lemma count_app (p : Event -> bool) (evs1 evs2 : list Event) :
  count p (evs1 ++ evs2)%list = (count p evs1 + count p evs2)%nat.
Proof. unfold count. rewrite filter_app, length_app. reflexivity. Qed.

Lemma count_label_events (p : Event -> bool) (evs : list Event) :
  (forall ev, is_label_event ev = true -> p ev = false) ->
  forallb is_label_event evs = true -> count p evs = O.
Proof.
  intros Hp. induction evs as [|ev evs IH]; simpl; intros H; [reflexivity|].
  apply andb_true_iff in H as [Hev Hevs].
  unfold count in *. simpl. rewrite (Hp ev Hev). auto.
Qed.

Lemma stored_app (P : Platform) (evs1 evs2 : list Event) (c : CropResult.t) :
  stored P evs1 c -> stored P (evs1 ++ evs2)%list c.
Proof.
  intros (Hid & Hurl & Hin). repeat split; try assumption.
  apply in_or_app. left. exact Hin.
Qed.

Section Runs.
Variable P : Platform.

(** The step of the loop after a crop call. *)
Lemma step_effects buf dims (bbox : JSONValue) (ev : Event)
    (f : World P -> (exn + Buffer P) * World P)
    (acc : list CropResult.t * list BBoxTuple) (st : State (World P)) :
  is_label_event ev = true ->
  cropImageSharp P buf bbox dims = call ev f ->
  exists evs st',
    forallb is_label_event evs = true
    /\ trace st' = (trace st ++ evs)%list
    /\ ((exists c,
           processLabel P buf dims bbox acc st
           = (Returned ((fst acc ++ [c])%list,
                        (snd acc ++ [tuple_of bbox])%list), st')
           /\ stored P (trace st ++ evs)%list c)
        \/ (exists e, processLabel P buf dims bbox acc st = (Thrown e, st'))).
Proof.
  intros Hev Hc. unfold processLabel. rewrite Hc.
  unfold bind, call, call_total, ret.
  destruct st as [w tr]; cbn [world trace].
  destruct (f w) as [[e|cropped] w1] eqn:Hx.
  - exists [ev], {| world := w1; trace := (tr ++ [ev])%list |}.
    split; [cbn; rewrite Hev; reflexivity|].
    split; [reflexivity|]. right. eauto.
  - cbn [world trace].
    destruct (nanoid P w1) as [cropId w2] eqn:Hn. cbn [world trace].
    destruct (storagePut P ("wine-crops/" ++ cropId ++ ".png") cropped
                "image/png" w2) as [[e|u] w3] eqn:Hs.
    + exists [ev; CallNanoid;
              CallStoragePut ("wine-crops/" ++ cropId ++ ".png") "image/png"],
        {| world := w3;
           trace := (tr ++ [ev; CallNanoid;
                            CallStoragePut ("wine-crops/" ++ cropId ++ ".png")
                              "image/png"])%list |}.
      split; [cbn; rewrite Hev; reflexivity|].
      split; [reflexivity|]. right. exists e.
      rewrite <- !app_assoc. reflexivity.
    + exists [ev; CallNanoid;
              CallStoragePut ("wine-crops/" ++ cropId ++ ".png") "image/png"],
        {| world := w3;
           trace := (tr ++ [ev; CallNanoid;
                            CallStoragePut ("wine-crops/" ++ cropId ++ ".png")
                              "image/png"])%list |}.
      split; [cbn; rewrite Hev; reflexivity|].
      split; [reflexivity|]. left.
      eexists. split; [rewrite <- !app_assoc; reflexivity|].
      unfold stored. cbn [CropResult.id CropResult.url]. repeat split.
      * eauto.
      * eauto.
      * apply in_or_app. right. cbn. auto.
Qed.

(** One step of the loop: the events it adds are events of the loop, and
    a step that returns has pushed one stored crop. *)
Lemma processLabel_effects buf dims (bbox : JSONValue)
    (acc : list CropResult.t * list BBoxTuple) (st : State (World P)) :
  exists evs st',
    forallb is_label_event evs = true
    /\ trace st' = (trace st ++ evs)%list
    /\ ((exists c,
           processLabel P buf dims bbox acc st
           = (Returned ((fst acc ++ [c])%list,
                        (snd acc ++ [tuple_of bbox])%list), st')
           /\ stored P (trace st ++ evs)%list c)
        \/ (exists e, processLabel P buf dims bbox acc st = (Thrown e, st'))).
Proof.
  destruct (as_box bbox) as [box|] eqn:Hb.
  - apply (@step_effects buf dims bbox
             (CallExtract (Mapper.cropRegion box dims))
             (sharp_extract_png P buf (Mapper.cropRegion box dims)) acc st).
    + reflexivity.
    + unfold cropImageSharp. rewrite Hb. reflexivity.
  - destruct bbox as [| b | q | s | elems | fields];
      [ exists [], st; rewrite app_nil_r;
        split; [reflexivity|]; split; [reflexivity|];
        right; exists (Error "TypeError");
        unfold processLabel, cropImageSharp; rewrite Hb; reflexivity
      | .. ];
      match goal with
      | |- context [processLabel P buf dims ?v _ st] =>
          apply (@step_effects buf dims v (CallExtractCoerced v)
                   (sharp_extract_png_coerced P buf v dims) acc st);
            [ reflexivity
            | unfold cropImageSharp; rewrite Hb; reflexivity ]
      end.
Qed.

(** The loop: it returns, the events it adds are events of the loop, and
    the crops it returns are the ones it was given and stored crops. *)
Lemma forLabels_effects buf dims (labels : list JSONValue) :
  forall acc st,
    Forall (stored P (trace st)) (fst acc) ->
    exists evs acc' st',
      forLabels P buf dims labels acc st = (Returned acc', st')
      /\ forallb is_label_event evs = true
      /\ trace st' = (trace st ++ evs)%list
      /\ Forall (stored P (trace st ++ evs)%list) (fst acc').
Proof.
  induction labels as [|b labels IH]; intros acc st Hacc.
  - exists [], acc, st. cbn. rewrite app_nil_r. auto.
  - cbn [forLabels]. unfold bind at 1, try_catch.
    destruct (processLabel_effects buf dims b acc st)
      as (evs1 & st1 & Hl1 & Ht1 & [(c & Hrun & Hc) | (e & Hrun)]);
      rewrite Hrun.
    + assert (Hacc1 : Forall (stored P (trace st1))
                        (fst ((fst acc ++ [c])%list,
                              (snd acc ++ [tuple_of b])%list))).
      { cbn [fst]. rewrite Ht1. apply Forall_app. split.
        - eapply Forall_impl; [|exact Hacc]. intros a. apply stored_app.
        - constructor; [exact Hc | constructor]. }
      destruct (IH _ st1 Hacc1) as (evs2 & acc' & st' & Hr2 & Hl2 & Ht2 & Hs2).
      exists (evs1 ++ evs2)%list, acc', st'.
      rewrite Hr2, forallb_app, Hl1, Hl2, Ht2, Ht1.
      rewrite Ht1 in Hs2. rewrite <- !app_assoc in *. auto.
    + unfold bind at 1, console_error, emit, ret.
      set (st2 := {| world := world st1; trace := _ |}).
      assert (Hacc2 : Forall (stored P (trace st2)) (fst acc)).
      { subst st2. cbn [trace]. rewrite Ht1. eapply Forall_impl; [|exact Hacc].
        intros a Ha. rewrite <- app_assoc. apply stored_app. exact Ha. }
      destruct (IH acc st2 Hacc2) as (evs2 & acc' & st' & Hr2 & Hl2 & Ht2 & Hs2).
      exists (evs1 ++ ConsoleError "Failed to process individual label:" :: evs2)%list,
        acc', st'.
      rewrite Hr2, Ht2. subst st2. cbn [trace] in *.
      rewrite Ht1 in *. rewrite <- !app_assoc in *. cbn [app] in *.
      rewrite forallb_app, Hl1. cbn. rewrite Hl2. auto.
Qed.

Lemma detectWineLabels_throws (uri : string) (st : State (World P))
    (e : exn) (w' : World P) :
  invokeLLM P uri (world st) = (inl e, w') ->
  detectWineLabels P uri st
  = (Thrown e,
     {| world := w'; trace := (trace st ++ [CallInvokeLLM uri])%list |}).
Proof.
  intros H. unfold detectWineLabels, bind at 1, call. rewrite H. reflexivity.
Qed.

Lemma detectWineLabels_trace (uri : string) (st : State (World P)) :
  exists log,
    trace (snd (detectWineLabels P uri st))
    = (trace st ++ CallInvokeLLM uri :: log)%list
    /\ forallb is_label_event log = true.
Proof.
  destruct (invokeLLM P uri (world st)) as [[e|response] w'] eqn:Hllm.
  - rewrite (detectWineLabels_throws uri st Hllm). exists []. auto.
  - rewrite (WineFacts.detectWineLabels_run P uri st Hllm).
    destruct (content_text (response_content response)) as [text|];
      [|exists []; auto].
    destruct (JSON_parse P text); [exists []; auto|].
    exists [ConsoleError "Failed to parse LLM response:"].
    cbn [snd trace]. rewrite <- app_assoc. auto.
Qed.

Lemma getImageDimensions_trace (buf : Buffer P) (st : State (World P)) :
  trace (snd (getImageDimensions P buf st)) = (trace st ++ [CallMetadata])%list.
Proof.
  unfold getImageDimensions, bind, call.
  destruct (sharp_metadata P buf (world st)) as [[e|md] w']; reflexivity.
Qed.

(** Every path of [processWineImage]: the events of the run, and the
    crops of a result. *)
Lemma processWineImage_paths (uri : string) (st : State (World P)) :
  exists evs o st',
    processWineImage P uri st = (o, st')
    /\ trace st' = (trace st ++ evs)%list
    /\ count is_model_call evs
       = (if Regex.test DataUri.pattern uri then 1 else 0)%nat
    /\ (count is_metadata_call evs <= 1)%nat
    /\ match o with
       | Returned result =>
           Forall (stored P (trace st ++ evs)%list)
             (ProcessingResult.crops result)
       | Thrown _ => True
       end.
Proof.
  unfold processWineImage, try_catch, bind at 1, base64ToBuffer,
    DataUri.String_match.
  destruct (Regex.test DataUri.pattern uri).
  - cbn [lift ret]. unfold bind at 1.
    destruct (detectWineLabels_trace uri st) as (log & Hlog & Hl).
    assert (Hm : count is_model_call log = O)
      by (apply count_label_events; [intros []; cbn; congruence | exact Hl]).
    assert (Hd : count is_metadata_call log = O)
      by (apply count_label_events; [intros []; cbn; congruence | exact Hl]).
    destruct (detectWineLabels P uri st) as [[labels|e] st1]; cbn [snd] in Hlog.
    + destruct labels as [|b labels]; cbn [List.length Nat.eqb].
      * exists (CallInvokeLLM uri :: log). eexists _, _.
        split; [reflexivity|]. split; [exact Hlog|].
        change (CallInvokeLLM uri :: log) with ([CallInvokeLLM uri] ++ log)%list.
        rewrite !count_app, Hm, Hd. cbn. auto.
      * unfold bind at 1.
        assert (Hg := getImageDimensions_trace
                        (Buffer_from P (snd (DataUri.groups uri))) st1).
        destruct (getImageDimensions P (Buffer_from P (snd (DataUri.groups uri)))
                    st1) as [[dims|e] st2]; cbn [snd] in Hg.
        -- unfold bind at 1.
           destruct (@forLabels_effects (Buffer_from P (snd (DataUri.groups uri)))
                       dims (b :: labels) ([], []) st2 (Forall_nil _))
             as (evs & acc' & st3 & Hrun & Hle & Ht & Hs).
           rewrite Hrun.
           exists (([CallInvokeLLM uri] ++ log) ++ [CallMetadata] ++ evs)%list.
           eexists _, _. split; [reflexivity|].
           cbn [ProcessingResult.crops].
           rewrite Ht, Hg, Hlog in *. cbn [app] in *.
           rewrite <- !app_assoc in *. cbn [app] in *.
           split; [reflexivity|].
           change (CallInvokeLLM uri :: (log ++ CallMetadata :: evs)%list)
             with ([CallInvokeLLM uri] ++ log ++ [CallMetadata] ++ evs)%list.
           assert (Hm3 : count is_model_call evs = O)
             by (apply count_label_events;
                 [intros []; cbn; congruence | exact Hle]).
           assert (Hd3 : count is_metadata_call evs = O)
             by (apply count_label_events;
                 [intros []; cbn; congruence | exact Hle]).
           rewrite !count_app, Hm, Hd, Hm3, Hd3. cbn. auto.
        -- exists (([CallInvokeLLM uri] ++ log) ++ [CallMetadata]
                   ++ [ConsoleError "Failed to process wine image:"])%list.
           eexists _, _. split; [reflexivity|]. cbn [trace].
           rewrite Hg, Hlog. cbn [app]. rewrite <- !app_assoc. cbn [app].
           split; [reflexivity|].
           change (CallInvokeLLM uri :: (log ++ [CallMetadata;
                     ConsoleError "Failed to process wine image:"])%list)
             with ([CallInvokeLLM uri] ++ log ++ [CallMetadata;
                     ConsoleError "Failed to process wine image:"])%list.
           rewrite !count_app, Hm, Hd. cbn. auto.
    + exists (([CallInvokeLLM uri] ++ log)
              ++ [ConsoleError "Failed to process wine image:"])%list.
      eexists _, _. split; [reflexivity|]. cbn [trace].
      rewrite Hlog. cbn [app]. rewrite <- !app_assoc. cbn [app].
      split; [reflexivity|].
      change (CallInvokeLLM uri :: (log ++
                [ConsoleError "Failed to process wine image:"])%list)
        with ([CallInvokeLLM uri] ++ log ++
                [ConsoleError "Failed to process wine image:"])%list.
      rewrite !count_app, Hm, Hd. cbn. auto.
  - exists [ConsoleError "Failed to process wine image:"]. eexists _, _.
    split; [reflexivity|]. cbn. auto.
Qed.

End Runs.

(** Entries aligned with the surviving elements: the entry of a box is
    its four numbers, in [bboxes] and in the crop at the same index. *)
Lemma entries_of_boxes (cs : list CropResult.t) (vs : list JSONValue)
    (i : nat) (v : JSONValue) (box : BoundingBox) :
  map CropResult.bbox cs = map tuple_of vs ->
  nth_error vs i = Some v ->
  as_box v = Some box ->
  nth_error (map tuple_of vs) i
  = Some (Some (JNumber (ymin box)), Some (JNumber (xmin box)),
          Some (JNumber (ymax box)), Some (JNumber (xmax box)))
  /\ exists c,
       nth_error cs i = Some c
       /\ CropResult.bbox c
          = (Some (JNumber (ymin box)), Some (JNumber (xmin box)),
             Some (JNumber (ymax box)), Some (JNumber (xmax box))).
Proof.
  intros Hmap Hi Hb.
  assert (Hentry : nth_error (map tuple_of vs) i
          = Some (Some (JNumber (ymin box)), Some (JNumber (xmin box)),
                  Some (JNumber (ymax box)), Some (JNumber (xmax box)))).
  { rewrite <- (WineFacts.as_box_tuple v Hb). apply map_nth_error. exact Hi. }
  split; [exact Hentry|].
  rewrite <- Hmap in Hentry.
  destruct (nth_error cs i) as [c|] eqn:Hc.
  - exists c. split; [reflexivity|].
    rewrite (map_nth_error CropResult.bbox _ _ Hc) in Hentry.
    congruence.
  - assert (Hsome : nth_error (map CropResult.bbox cs) i <> None)
      by congruence.
    apply nth_error_None in Hc.
    apply nth_error_Some in Hsome. rewrite length_map in Hsome. lia.
Qed.

(** X5. On a well-shaped input for which the detector returned N
    elements and the dimensions were read, [processWineImage] returns
    whatever the number k of elements whose step throws: [crops] and
    [bboxes] have N-k entries, the [bbox] of each crop is the entry of
    [bboxes] at the same index, and the i-th entry is the tuple of the
    four properties [ymin], [xmin], [ymax], [xmax] of the i-th surviving
    element, in the order of the detector: for a box, its four numbers.
    When every element fails the result is empty, and still a result. *)
Theorem failed_boxes_are_skipped
    (P : Platform) (uri : string) (st st1 st2 : State (World P))
    (labels : list JSONValue) (dims : Dimensions.t) :
  Regex.Matches DataUri.pattern uri ->
  detectWineLabels P uri st = (Returned labels, st1) ->
  labels <> [] ->
  getImageDimensions P (Buffer_from P (snd (DataUri.groups uri))) st1
    = (Returned dims, st2) ->
  exists result st3,
    processWineImage P uri st = (Returned result, st3)
    /\ (List.length (ProcessingResult.crops result)
        + failures (labelFailures P (Buffer_from P (snd (DataUri.groups uri)))
                      dims labels st2))%nat
       = List.length labels
    /\ List.length (ProcessingResult.bboxes result)
       = List.length (ProcessingResult.crops result)
    /\ map CropResult.bbox (ProcessingResult.crops result)
       = ProcessingResult.bboxes result
    /\ ProcessingResult.bboxes result
       = map (fun v => (prop v "ymin", prop v "xmin",
                        prop v "ymax", prop v "xmax"))
           (survivors labels
              (labelFailures P (Buffer_from P (snd (DataUri.groups uri)))
                 dims labels st2))
    /\ (forall i v box,
          nth_error
            (survivors labels
               (labelFailures P (Buffer_from P (snd (DataUri.groups uri)))
                  dims labels st2)) i = Some v ->
          as_box v = Some box ->
          nth_error (ProcessingResult.bboxes result) i
          = Some (Some (JNumber (ymin box)), Some (JNumber (xmin box)),
                  Some (JNumber (ymax box)), Some (JNumber (xmax box)))
          /\ exists c,
               nth_error (ProcessingResult.crops result) i = Some c
               /\ CropResult.bbox c
                  = (Some (JNumber (ymin box)), Some (JNumber (xmin box)),
                     Some (JNumber (ymax box)), Some (JNumber (xmax box)))).
Proof.
  intros Hm Hd Hne Hg.
  destruct (@WineFacts.processWineImage_boxes P _ _ _ _ _ _ Hm Hd Hne Hg)
    as (cs & evs & st3 & _ & Hrun & Hmap & _).
  assert (Hlen := @WineFacts.survivors_length labels _
            (WineFacts.labelFailures_length P
               (Buffer_from P (snd (DataUri.groups uri))) dims labels st2)).
  eexists _, st3. split; [exact Hrun|].
  cbn [ProcessingResult.crops ProcessingResult.bboxes].
  assert (Hcs : List.length cs
                = List.length (survivors labels
                    (labelFailures P (Buffer_from P (snd (DataUri.groups uri)))
                       dims labels st2))).
  { rewrite <- (length_map CropResult.bbox), Hmap, length_map. reflexivity. }
  split; [rewrite Hcs; exact Hlen|].
  split; [rewrite length_map, Hcs; reflexivity|].
  split; [exact Hmap|].
  split; [reflexivity|].
  intros i v box Hi Hb. exact (@entries_of_boxes cs _ i v box Hmap Hi Hb).
Qed.

Lemma failed_boxes_are_skipped_witness :
  exists result st3,
    processWineImage
      (ScriptedFaults.finds
         [Scripted.label; Scripted.inverted; Scripted.outside;
          Scripted.degenerate])
      Scripted.png Scripted.start = (Returned result, st3)
    /\ (List.length (ProcessingResult.crops result) + 2)%nat = 4%nat
    /\ List.length (ProcessingResult.bboxes result)
       = List.length (ProcessingResult.crops result)
    /\ map CropResult.bbox (ProcessingResult.crops result)
       = ProcessingResult.bboxes result
    /\ ProcessingResult.bboxes result
       = [ (Some (JNumber 100), Some (JNumber 200),
            Some (JNumber 500), Some (JNumber 700));
           (Some (JNumber 100), Some (JNumber 300),
            Some (JNumber 500), Some (JNumber 300)) ]
    /\ (forall i v box,
          nth_error [box_value Scripted.label; box_value Scripted.degenerate] i
          = Some v ->
          as_box v = Some box ->
          nth_error (ProcessingResult.bboxes result) i
          = Some (Some (JNumber (ymin box)), Some (JNumber (xmin box)),
                  Some (JNumber (ymax box)), Some (JNumber (xmax box)))
          /\ exists c,
               nth_error (ProcessingResult.crops result) i = Some c
               /\ CropResult.bbox c
                  = (Some (JNumber (ymin box)), Some (JNumber (xmin box)),
                     Some (JNumber (ymax box)), Some (JNumber (xmax box)))).
Proof.
  apply (@failed_boxes_are_skipped
           (ScriptedFaults.finds
              [Scripted.label; Scripted.inverted; Scripted.outside;
               Scripted.degenerate])
           Scripted.png Scripted.start
           {| world := O; trace := [CallInvokeLLM Scripted.png] |}
           {| world := O; trace := [CallInvokeLLM Scripted.png; CallMetadata] |}
           [box_value Scripted.label; box_value Scripted.inverted;
            box_value Scripted.outside; box_value Scripted.degenerate]
           Scripted.dims1000).
  - apply RegexFacts.test_spec. reflexivity.
  - reflexivity.
  - discriminate.
  - reflexivity.
Defined.

(** X6. A failure of the model call is not swallowed: on a well-shaped
    input, when [invokeLLM] throws, [detectWineLabels] throws the same
    value and so does [processWineImage], after the [console.error] of its
    outer [catch]; nothing was read, cropped or stored. *)
Theorem model_failure_fails_the_request
    (P : Platform) (uri : string) (st : State (World P))
    (e : exn) (w' : World P) :
  Regex.Matches DataUri.pattern uri ->
  invokeLLM P uri (world st) = (inl e, w') ->
  detectWineLabels P uri st
  = (Thrown e,
     {| world := w'; trace := (trace st ++ [CallInvokeLLM uri])%list |})
  /\ processWineImage P uri st
     = (Thrown e,
        {| world := w';
           trace := (trace st ++ [CallInvokeLLM uri;
                       ConsoleError "Failed to process wine image:"])%list |}).
Proof.
  intros Hm Hllm.
  assert (Hd := detectWineLabels_throws P uri st Hllm).
  split; [exact Hd|].
  unfold processWineImage, try_catch, bind at 1.
  rewrite (WineFacts.base64ToBuffer_matched P Hm). cbn [lift ret].
  unfold bind at 1. rewrite Hd.
  unfold bind, console_error, emit, throw. cbn [world trace].
  rewrite <- app_assoc. reflexivity.
Qed.

Lemma model_failure_fails_the_request_witness :
  detectWineLabels ScriptedFaults.model_down Scripted.png Scripted.start
  = (Thrown (Error "fetch failed"),
     {| world := O; trace := ([] ++ [CallInvokeLLM Scripted.png])%list |})
  /\ processWineImage ScriptedFaults.model_down Scripted.png Scripted.start
     = (Thrown (Error "fetch failed"),
        {| world := O;
           trace := ([] ++ [CallInvokeLLM Scripted.png;
                       ConsoleError "Failed to process wine image:"])%list |}).
Proof.
  apply (@model_failure_fails_the_request ScriptedFaults.model_down
           Scripted.png Scripted.start (Error "fetch failed") O).
  - apply RegexFacts.test_spec. reflexivity.
  - reflexivity.
Defined.

(** X7. A failure to read the metadata fails the whole request: on a
    well-shaped input for which boxes came back, when
    [sharp(buffer).metadata()] throws, [processWineImage] throws the same
    value after the [console.error] of its outer [catch], and no box was
    cropped or stored. *)
Theorem unreadable_image_fails_the_request
    (P : Platform) (uri : string) (st st1 : State (World P))
    (labels : list JSONValue) (e : exn) (w2 : World P) :
  Regex.Matches DataUri.pattern uri ->
  detectWineLabels P uri st = (Returned labels, st1) ->
  labels <> [] ->
  sharp_metadata P (Buffer_from P (snd (DataUri.groups uri))) (world st1)
    = (inl e, w2) ->
  processWineImage P uri st
  = (Thrown e,
     {| world := w2;
        trace := (trace st1 ++ [CallMetadata;
                    ConsoleError "Failed to process wine image:"])%list |}).
Proof.
  intros Hm Hd Hne Hmd.
  unfold processWineImage, try_catch, bind at 1.
  rewrite (WineFacts.base64ToBuffer_matched P Hm). cbn [lift ret].
  unfold bind at 1. rewrite Hd.
  destruct labels as [|b labels]; [congruence|].
  cbn [List.length Nat.eqb].
  unfold bind at 1, getImageDimensions, bind at 1, call. rewrite Hmd.
  unfold bind, console_error, emit, throw. cbn [world trace].
  rewrite <- app_assoc. reflexivity.
Qed.

Lemma unreadable_image_fails_the_request_witness :
  processWineImage ScriptedFaults.unreadable_image Scripted.png Scripted.start
  = (Thrown (Error "Input buffer contains unsupported image format"),
     {| world := O;
        trace := ([CallInvokeLLM Scripted.png]
                  ++ [CallMetadata;
                      ConsoleError "Failed to process wine image:"])%list |}).
Proof.
  apply (@unreadable_image_fails_the_request ScriptedFaults.unreadable_image
           Scripted.png Scripted.start
           {| world := O; trace := [CallInvokeLLM Scripted.png] |}
           [box_value Scripted.label]
           (Error "Input buffer contains unsupported image format") O).
  - apply RegexFacts.test_spec. reflexivity.
  - reflexivity.
  - discriminate.
  - reflexivity.
Defined.

(** X8. Every crop of a result was stored: its [id] is a value [nanoid]
    returned, its [url] is what [storagePut] answered for the key
    [wine-crops/<id>.png] with the content type [image/png], and that
    store call is in the trace of the run. *)
Theorem returned_crops_were_stored
    (P : Platform) (uri : string) (st st' : State (World P))
    (result : ProcessingResult.t) :
  processWineImage P uri st = (Returned result, st') ->
  Forall (stored P (trace st')) (ProcessingResult.crops result).
Proof.
  intros H.
  destruct (processWineImage_paths P uri st)
    as (evs & o & st0 & Hrun & Ht & _ & _ & Hs).
  rewrite H in Hrun. injection Hrun as <- <-.
  rewrite Ht. exact Hs.
Qed.

Lemma returned_crops_were_stored_witness :
  Forall
    (stored (ScriptedFaults.finds [Scripted.label; Scripted.inverted])
       [CallInvokeLLM Scripted.png; CallMetadata;
        CallExtract (Mapper.cropRegion Scripted.label Scripted.dims1000);
        CallNanoid; CallStoragePut "wine-crops/a.png" "image/png";
        CallExtract (Mapper.cropRegion Scripted.inverted Scripted.dims1000);
        ConsoleError "Failed to process individual label:"])
    [ {| CropResult.id := "a";
         CropResult.url := "https://storage/wine-crops/a.png";
         CropResult.bbox := tuple_of (box_value Scripted.label) |} ].
Proof.
  apply (@returned_crops_were_stored
           (ScriptedFaults.finds [Scripted.label; Scripted.inverted])
           Scripted.png Scripted.start
           {| world := 1%nat;
              trace :=
                [CallInvokeLLM Scripted.png; CallMetadata;
                 CallExtract (Mapper.cropRegion Scripted.label Scripted.dims1000);
                 CallNanoid; CallStoragePut "wine-crops/a.png" "image/png";
                 CallExtract (Mapper.cropRegion Scripted.inverted Scripted.dims1000);
                 ConsoleError "Failed to process individual label:"] |}
           {| ProcessingResult.crops :=
                [ {| CropResult.id := "a";
                     CropResult.url := "https://storage/wine-crops/a.png";
                     CropResult.bbox := tuple_of (box_value Scripted.label) |} ];
              ProcessingResult.bboxes := [tuple_of (box_value Scripted.label)] |}).
  reflexivity.
Defined.

(** X9. When [sharp] returns metadata, [getImageDimensions] never returns
    a width or a height of 0: a reported 0 is replaced by 1000 like a
    missing dimension, and any other reported dimension is returned as it
    is. *)
Theorem reported_zero_is_replaced
    (P : Platform) (buffer : Buffer P) (st : State (World P))
    (md : Metadata) (w' : World P) :
  sharp_metadata P buffer (world st) = (inr md, w') ->
  exists dims,
    getImageDimensions P buffer st
    = (Returned dims,
       {| world := w'; trace := (trace st ++ [CallMetadata])%list |})
    /\ Dimensions.width dims <> 0%Z
    /\ Dimensions.height dims <> 0%Z
    /\ (md_width md = Some 0%Z -> Dimensions.width dims = 1000%Z)
    /\ (md_height md = Some 0%Z -> Dimensions.height dims = 1000%Z)
    /\ (forall n, md_width md = Some n -> n <> 0%Z -> Dimensions.width dims = n)
    /\ (forall n, md_height md = Some n -> n <> 0%Z ->
          Dimensions.height dims = n).
Proof.
  intros H. eexists. split.
  - unfold getImageDimensions, bind, call. rewrite H. reflexivity.
  - cbn [Dimensions.width Dimensions.height]. unfold or_default.
    repeat split.
    + destruct (md_width md) as [n|]; [|discriminate].
      destruct (Z.eqb_spec n 0); [discriminate | assumption].
    + destruct (md_height md) as [n|]; [|discriminate].
      destruct (Z.eqb_spec n 0); [discriminate | assumption].
    + intros ->. reflexivity.
    + intros ->. reflexivity.
    + intros n -> Hn. destruct (Z.eqb_spec n 0); [contradiction | reflexivity].
    + intros n -> Hn. destruct (Z.eqb_spec n 0); [contradiction | reflexivity].
Qed.

Lemma reported_zero_is_replaced_witness :
  exists dims,
    getImageDimensions
      (Scripted.platform (Scripted.reply_text "[]") (fun _ => None)
         {| md_width := Some 0%Z; md_height := Some 768%Z |} Scripted.dims1000)
      "iVBORw0KGgo=" Scripted.start
    = (Returned dims, {| world := O; trace := ([] ++ [CallMetadata])%list |})
    /\ Dimensions.width dims <> 0%Z
    /\ Dimensions.height dims <> 0%Z
    /\ (Some 0%Z = Some 0%Z -> Dimensions.width dims = 1000%Z)
    /\ (Some 768%Z = Some 0%Z -> Dimensions.height dims = 1000%Z)
    /\ (forall n, Some 0%Z = Some n -> n <> 0%Z -> Dimensions.width dims = n)
    /\ (forall n, Some 768%Z = Some n -> n <> 0%Z ->
          Dimensions.height dims = n).
Proof.
  apply (@reported_zero_is_replaced
           (Scripted.platform (Scripted.reply_text "[]") (fun _ => None)
              {| md_width := Some 0%Z; md_height := Some 768%Z |}
              Scripted.dims1000)
           "iVBORw0KGgo=" Scripted.start
           {| md_width := Some 0%Z; md_height := Some 768%Z |} O).
  reflexivity.
Defined.

(** X10. No request calls the model or reads the metadata twice: the
    events a run of [processWineImage] adds to the trace hold exactly one
    model call when the input is matched by the pattern and none when it
    is not, and at most one metadata read, whatever the collaborators
    do. *)
Theorem one_model_call_per_request
    (P : Platform) (uri : string) (st : State (World P)) :
  exists evs,
    trace (snd (processWineImage P uri st)) = (trace st ++ evs)%list
    /\ count is_model_call evs
       = (if Regex.test DataUri.pattern uri then 1 else 0)%nat
    /\ (count is_metadata_call evs <= 1)%nat.
Proof.
  destruct (processWineImage_paths P uri st)
    as (evs & o & st0 & Hrun & Ht & Hm & Hd & _).
  exists evs. rewrite Hrun. cbn [snd]. auto.
Qed.

End WineRuns.

(* ################################################################## *)
(** * Properties of the [wine.processImage] procedure *)

Module RouterFacts.

Import Run Router.
Local Open Scope string_scope.

(** The request the page sends reaches the pipeline with its data URL. *)
Lemma processImage_of_request (P : Platform) (imageData : string)
    (st : State (World P)) :
  processImage P (VObject [("imageData", VString imageData)]) st
  = Wine.processWineImage P imageData st.
Proof. reflexivity. Qed.

(** X11. A request that is not an object with an [imageData] key (a
    string, a number, [null], an array, an object without the key) is
    refused with "Invalid input" before the pipeline is entered: the world
    and the trace are untouched, not even a log line is written. *)
Theorem request_without_imageData_is_refused
    (P : Platform) (val : JSValue) (st : State (World P)) :
  (forall fields, val = VObject fields -> has_key "imageData" fields = false) ->
  processImage P val st = (Thrown (Error "Invalid input"), st).
Proof.
  intros H. unfold processImage, bind, processImage_input.
  destruct val; try reflexivity.
  rewrite (H fields eq_refl). reflexivity.
Qed.

Lemma request_without_imageData_is_refused_witness :
  processImage (ScriptedFaults.finds [Scripted.label])
    (VObject [("image", VString Scripted.png)]) Scripted.start
  = (Thrown (Error "Invalid input"), Scripted.start).
Proof.
  apply (@request_without_imageData_is_refused
           (ScriptedFaults.finds [Scripted.label])
           (VObject [("image", VString Scripted.png)]) Scripted.start).
  intros fields E. injection E as <-. reflexivity.
Defined.

(** X12. The input check does not look at the value of [imageData]: an
    object that has the key passes it whatever the key holds, and when
    that is not a string the request fails inside the pipeline, with the
    [console.error] of its outer [catch] and without a call to the model
    or to any other collaborator. *)
Theorem imageData_value_is_not_checked
    (P : Platform) (fields : list (string * JSValue)) (st : State (World P)) :
  has_key "imageData" fields = true ->
  (forall s, get "imageData" fields <> VString s) ->
  processImage_input (VObject fields) = inr fields
  /\ exists e,
       processImage P (VObject fields) st
       = (Thrown e,
          {| world := world st;
             trace := (trace st
                       ++ [ConsoleError "Failed to process wine image:"])%list |}).
Proof.
  intros Hk Hs.
  assert (Hin : processImage_input (VObject fields) = inr fields)
    by (unfold processImage_input; rewrite Hk; reflexivity).
  split; [exact Hin|].
  unfold processImage, bind at 1. rewrite Hin. cbn [Wine.lift ret].
  destruct (get "imageData" fields) eqn:Hg;
    try (eexists; reflexivity).
  exfalso. eapply Hs. reflexivity.
Qed.

Lemma imageData_value_is_not_checked_witness :
  processImage_input (VObject [("imageData", VNumber 42)])
  = inr [("imageData", VNumber 42)]
  /\ exists e,
       processImage (ScriptedFaults.finds [Scripted.label])
         (VObject [("imageData", VNumber 42)]) Scripted.start
       = (Thrown e,
          {| world := O;
             trace := ([] ++ [ConsoleError "Failed to process wine image:"])%list |}).
Proof.
  apply (@imageData_value_is_not_checked
           (ScriptedFaults.finds [Scripted.label])
           [("imageData", VNumber 42)] Scripted.start).
  - reflexivity.
  - intros s. discriminate.
Defined.

End RouterFacts.

(* ################################################################## *)
(** * Properties of the page, and of the page with the server *)

Module HomeFacts.

Import Run Regex DataUri Home.
Local Open Scope string_scope.

Lemma span_word_stop (word rest : string) (c : ascii) :
  forall_chars is_word word = true -> is_word c = false ->
  span_word (word ++ String c rest) = (word, String c rest).
Proof.
  intros Hw Hc. induction word as [|a word IH]; simpl.
  - rewrite Hc. reflexivity.
  - simpl in Hw. apply andb_true_iff in Hw as [Ha Hw].
    rewrite Ha, (IH Hw). reflexivity.
Qed.

Lemma is_image_type (subtype : string) : is_image ("image/" ++ subtype) = true.
Proof.
  unfold is_image. apply prefix_correct. destruct subtype; reflexivity.
Qed.

(** A media subtype whose first character outside [\w] is not [;] makes
    a data URL the pattern does not match, whatever the payload. *)
Lemma subtype_not_matched (word rest payload : string) (c : ascii) :
  forall_chars is_word word = true -> is_word c = false ->
  c <> ";"%char ->
  ~ Matches pattern
      ("data:" ++ ("image/" ++ word ++ String c rest) ++ ";base64," ++ payload).
Proof.
  intros Hw Hc Hsemi Hm.
  apply DataUriFacts.pattern_shape in Hm as (t & p & E & _ & Ht & _).
  cbn [append] in E. injection E as E.
  rewrite !RegexFacts.append_assoc in E. cbn [append] in E.
  apply (f_equal span_word) in E.
  rewrite (@span_word_stop word _ c Hw Hc) in E.
  change (t ++ String ";" (String "b" ?r))
    with (t ++ ";" ++ String "b" r) in E.
  rewrite (@DataUriFacts.span_word_shaped t _ Ht) in E.
  cbn [append] in E. inversion E as [[Et Ec Er]].
  exact (Hsemi Ec).
Qed.

(** X14. The page and the server do not agree on what an image is.  A
    file whose type is [image/] followed by a subtype with a character
    outside [[A-Za-z0-9_]] that is not [;] (as in [svg+xml] or [x-icon])
    passes the check of the page; the data URL made of that type and any
    payload is refused by [base64ToBuffer]; and the upload ends on the
    empty page with the toast "Failed to process image", the server having
    logged the failure without calling the model. *)
Theorem page_accepts_types_the_server_refuses
    (P : Platform) (word rest payload : string) (c : ascii)
    (ui : UI) (server : State (World P)) :
  forall_chars is_word word = true -> is_word c = false ->
  c <> ";"%char ->
  is_image ("image/" ++ word ++ String c rest) = true
  /\ Wine.base64ToBuffer P
       ("data:" ++ ("image/" ++ word ++ String c rest) ++ ";base64," ++ payload)
     = inl (Error "Invalid base64 image data")
  /\ upload P ("image/" ++ word ++ String c rest)
       ("data:" ++ ("image/" ++ word ++ String c rest) ++ ";base64," ++ payload)
       ui server
     = ({| state := None;
           toasts := (toasts ui ++ [ToastError "Failed to process image"])%list |},
        {| world := world server;
           trace := (trace server
                     ++ [ConsoleError "Failed to process wine image:"])%list |}).
Proof.
  intros Hw Hc Hsemi.
  assert (Hn := @subtype_not_matched word rest payload c Hw Hc Hsemi).
  assert (Hb := WineFacts.base64ToBuffer_unmatched P Hn).
  split; [apply is_image_type|]. split; [exact Hb|].
  unfold upload, handleFileSelect.
  rewrite is_image_type.
  cbn [negb onload_begin].
  rewrite RouterFacts.processImage_of_request.
  unfold Wine.processWineImage, try_catch, bind at 1. rewrite Hb.
  reflexivity.
Qed.

Lemma page_accepts_types_the_server_refuses_witness :
  is_image ("image/" ++ "svg" ++ String "+"%char "xml") = true
  /\ Wine.base64ToBuffer (ScriptedFaults.finds [Scripted.label])
       ("data:" ++ ("image/" ++ "svg" ++ String "+"%char "xml")
        ++ ";base64," ++ "PHN2Zy8+")
     = inl (Error "Invalid base64 image data")
  /\ upload (ScriptedFaults.finds [Scripted.label])
       ("image/" ++ "svg" ++ String "+"%char "xml")
       ("data:" ++ ("image/" ++ "svg" ++ String "+"%char "xml")
        ++ ";base64," ++ "PHN2Zy8+")
       Home.start Scripted.start
     = ({| state := None;
           toasts := ([] ++ [ToastError "Failed to process image"])%list |},
        {| world := O;
           trace := ([] ++ [ConsoleError "Failed to process wine image:"])%list |}).
Proof.
  apply (@page_accepts_types_the_server_refuses
           (ScriptedFaults.finds [Scripted.label]) "svg" "xml" "PHN2Zy8+"
           "+"%char Home.start Scripted.start).
  - reflexivity.
  - reflexivity.
  - discriminate.
Defined.

(** X15. An upload the server answers, with no other event of the page in
    between: the page ends on the results view with the data URL as the
    original image, the crops and the boxes of the answer, no spinner, and
    a toast that counts the crops. *)
Theorem upload_shows_the_answer
    (P : Platform) (file_type imageData : string) (ui : UI)
    (server server' : State (World P)) (result : ProcessingResult.t) :
  is_image file_type = true ->
  Wine.processWineImage P imageData server = (Returned result, server') ->
  upload P file_type imageData ui server
  = ({| state := Some {| originalUrl := Some imageData;
                         crops := ProcessingResult.crops result;
                         bboxes := ProcessingResult.bboxes result;
                         isProcessing := false |};
        toasts := (toasts ui ++
                   [ToastSuccess
                      (detected_message
                         (List.length (ProcessingResult.crops result)))])%list |},
      server').
Proof.
  intros Hi Hrun. unfold upload, handleFileSelect. rewrite Hi.
  cbn [negb onload_begin].
  rewrite RouterFacts.processImage_of_request, Hrun. reflexivity.
Qed.

Lemma upload_shows_the_answer_witness :
  upload (ScriptedFaults.finds [Scripted.label]) "image/png" Scripted.png
    Home.start Scripted.start
  = ({| state :=
          Some {| originalUrl := Some Scripted.png;
                  crops := [ {| CropResult.id := "a";
                                CropResult.url := "https://storage/wine-crops/a.png";
                                CropResult.bbox := Wine.tuple_of (box_value Scripted.label) |} ];
                  bboxes := [Wine.tuple_of (box_value Scripted.label)];
                  isProcessing := false |};
        toasts := ([] ++ [ToastSuccess "Detected 1 wine labels"])%list |},
      {| world := 1%nat;
         trace := [CallInvokeLLM Scripted.png; CallMetadata;
                   CallExtract (Mapper.cropRegion Scripted.label Scripted.dims1000);
                   CallNanoid;
                   CallStoragePut "wine-crops/a.png" "image/png"] |}).
Proof.
  apply (@upload_shows_the_answer (ScriptedFaults.finds [Scripted.label])
           "image/png" Scripted.png Home.start Scripted.start
           {| world := 1%nat;
              trace := [CallInvokeLLM Scripted.png; CallMetadata;
                        CallExtract (Mapper.cropRegion Scripted.label Scripted.dims1000);
                        CallNanoid;
                        CallStoragePut "wine-crops/a.png" "image/png"] |}
           {| ProcessingResult.crops :=
                [ {| CropResult.id := "a";
                     CropResult.url := "https://storage/wine-crops/a.png";
                     CropResult.bbox := Wine.tuple_of (box_value Scripted.label) |} ];
              ProcessingResult.bboxes := [Wine.tuple_of (box_value Scripted.label)] |}).
  - reflexivity.
  - reflexivity.
Defined.

(** X16. When the page is reset while the request is in flight, an
    answer that arrives afterwards brings the results view back: the state
    is not [null], it holds the crops and the boxes of the answer, and its
    original image URL is undefined.  Without the reset the URL is the
    data URL that was sent. *)
Theorem answer_after_reset_has_no_image
    (imageData : string) (ui : UI) (result : ProcessingResult.t) :
  onload_settle (Returned result) (reset (fst (onload_begin imageData ui)))
  = {| state := Some {| originalUrl := None;
                        crops := ProcessingResult.crops result;
                        bboxes := ProcessingResult.bboxes result;
                        isProcessing := false |};
       toasts := (toasts ui ++
                  [ToastSuccess
                     (detected_message
                        (List.length (ProcessingResult.crops result)))])%list |}
  /\ state (onload_settle (Returned result) (fst (onload_begin imageData ui)))
     = Some {| originalUrl := Some imageData;
               crops := ProcessingResult.crops result;
               bboxes := ProcessingResult.bboxes result;
               isProcessing := false |}.
Proof. split; reflexivity. Qed.

End HomeFacts.
